(** * LumoraPrompter: request classification and meta-instruction assembly

    A shallow embedding of the TypeScript pipeline (analyzer, technique
    selector, meta-instruction builder, justification formatter, optimizer,
    domain matcher, quality evaluator and the tool-call handler) together
    with the properties stated about it.

    JavaScript strings are sequences of UTF-16 code units and are modelled
    as [list N]; string literals of the source are written [js "..."] and
    decoded from the UTF-8 bytes of the Rocq literal.  JavaScript numbers
    that only ever hold small integers (lengths, scores) are modelled in
    [Z]; the one genuinely fractional computation, the weighted overall
    score, is modelled with binary64 floats. *)

From Stdlib Require Import String Ascii DecimalString.
From Stdlib Require Import ZArith NArith List Bool Lia Permutation Floats.
Import ListNotations.

Local Open Scope string_scope.
Local Open Scope list_scope.
Local Open Scope Z_scope.

Set Warnings "-inexact-float,-register-all".


(* ================================================================== *)
(** * JavaScript strings and arrays                                     *)
(* ================================================================== *)

Module JS.

(** A string value: its UTF-16 code units. *)
Definition jsstring := list N.

(** ** Literals: UTF-8 bytes of a Rocq literal to UTF-16 code units *)

Fixpoint bytes_of (s : string) : list N :=
  match s with
  | EmptyString => []
  | String c s' => N_of_ascii c :: bytes_of s'
  end.

Definition cont (b : N) : N := (b mod 64)%N.

Fixpoint utf8_points (bs : list N) : list N :=
  match bs with
  | [] => []
  | b0 :: r0 =>
    if (b0 <? 128)%N then b0 :: utf8_points r0
    else if (b0 <? 224)%N then
      match r0 with
      | b1 :: r1 => ((b0 mod 32) * 64 + cont b1)%N :: utf8_points r1
      | _ => []
      end
    else if (b0 <? 240)%N then
      match r0 with
      | b1 :: b2 :: r2 =>
        ((b0 mod 16) * 4096 + cont b1 * 64 + cont b2)%N :: utf8_points r2
      | _ => []
      end
    else
      match r0 with
      | b1 :: b2 :: b3 :: r3 =>
        ((b0 mod 8) * 262144 + cont b1 * 4096 + cont b2 * 64 + cont b3)%N
          :: utf8_points r3
      | _ => []
      end
  end.

Definition utf16_units (cp : N) : list N :=
  if (cp <? 65536)%N then [cp]
  else let c := (cp - 65536)%N in [(55296 + c / 1024)%N; (56320 + c mod 1024)%N].

Definition js (s : string) : jsstring :=
  flat_map utf16_units (utf8_points (bytes_of s)).

Arguments js s%_string.

(** ** Equality, prefixes and [String.prototype.includes] *)

Fixpoint streq (a b : jsstring) : bool :=
  match a, b with
  | [], [] => true
  | x :: a', y :: b' => (x =? y)%N && streq a' b'
  | _, _ => false
  end.

Fixpoint prefixb (w s : jsstring) : bool :=
  match w, s with
  | [], _ => true
  | x :: w', y :: s' => (x =? y)%N && prefixb w' s'
  | _ :: _, [] => false
  end.

(** [s.includes(w)] *)
Fixpoint includes (s w : jsstring) : bool :=
  prefixb w s ||
  match s with
  | [] => false
  | _ :: s' => includes s' w
  end.

(** [a.includes(x)] on an array of strings *)
Definition mem (x : jsstring) (l : list jsstring) : bool :=
  existsb (streq x) l.

(** ** Character classes of the regular expressions used in the source *)

(** [\s] *)
Definition is_space (c : N) : bool :=
  ((9 <=? c) && (c <=? 13) || (c =? 32) || (c =? 160) || (c =? 5760)
   || (8192 <=? c) && (c <=? 8202) || (c =? 8232) || (c =? 8233)
   || (c =? 8239) || (c =? 8287) || (c =? 12288) || (c =? 65279))%N.

(** [\d] *)
Definition is_digit (c : N) : bool := ((48 <=? c) && (c <=? 57))%N.

Definition is_upper (c : N) : bool := ((65 <=? c) && (c <=? 90))%N.
Definition is_lower (c : N) : bool := ((97 <=? c) && (c <=? 122))%N.

(** [\w] *)
Definition is_word (c : N) : bool :=
  is_upper c || is_lower c || is_digit c || (c =? 95)%N.

(** Case folding of the [i] flag for an ASCII pattern: without the [u]
    flag a non-ASCII code unit never matches an ASCII one. *)
Definition fold_ascii (c : N) : N := if is_upper c then (c + 32)%N else c.

(** [w] (a lower-case ASCII pattern) matches a prefix of [s] ignoring case;
    the result is the rest of [s]. *)
Fixpoint match_ci (w s : jsstring) : option jsstring :=
  match w, s with
  | [], _ => Some s
  | x :: w', y :: s' => if (x =? fold_ascii y)%N then match_ci w' s' else None
  | _ :: _, [] => None
  end.

(** ** [split(/\s+/)] *)

Fixpoint split_go (insep : bool) (cur : jsstring) (s : jsstring)
  : list jsstring :=
  match s with
  | [] => [rev cur]
  | c :: s' =>
    if is_space c then
      if insep then split_go true cur s'
      else rev cur :: split_go true [] s'
    else split_go false (c :: cur) s'
  end.

Definition split_ws (s : jsstring) : list jsstring := split_go false [] s.

(** ** [join], [slice(0, n)], [x || d], [[...new Set(l)]] *)

Fixpoint join (sep : jsstring) (l : list jsstring) : jsstring :=
  match l with
  | [] => []
  | [x] => x
  | x :: l' => x ++ sep ++ join sep l'
  end.

Definition slice0 {A} (n : nat) (l : list A) : list A := firstn n l.

(** [l[0] || d]: the first element unless it is missing or empty. *)
Definition first_or (l : list jsstring) (d : jsstring) : jsstring :=
  match l with
  | (_ :: _) as x :: _ => x
  | _ => d
  end.

(** Insertion-ordered deduplication, as [[...new Set(l)]]. *)
Fixpoint dedup_go (seen : list jsstring) (l : list jsstring) : list jsstring :=
  match l with
  | [] => []
  | x :: l' => if mem x seen then dedup_go seen l'
               else x :: dedup_go (x :: seen) l'
  end.

Definition dedup (l : list jsstring) : list jsstring := dedup_go [] l.

(** ** [Array.prototype.sort(cmp)]: a stable sort *)

Section Sort.
Context {A : Type} (cmp : A -> A -> Z).

Fixpoint insert (x : A) (l : list A) : list A :=
  match l with
  | [] => [x]
  | y :: l' => if cmp x y <=? 0 then x :: y :: l' else y :: insert x l'
  end.

Fixpoint sort (l : list A) : list A :=
  match l with
  | [] => []
  | x :: l' => insert x (sort l')
  end.
End Sort.

(** ** Numbers in template strings *)

Definition of_Z (z : Z) : jsstring :=
  js (NilEmpty.string_of_int (Z.to_int z)).

Definition len (s : jsstring) : Z := Z.of_nat (length s).
Definition count {A} (l : list A) : Z := Z.of_nat (length l).

(** ** [toLowerCase]

    The full Unicode case mapping is not reproduced; what the pipeline
    relies on is an interface: some function on strings that leaves every
    run of code units without upper-case variants in place. *)

Definition lower_stable (c : N) : Prop := (c < 128)%N /\ is_upper c = false.

Class CaseMapping := {
  toLowerCase : jsstring -> jsstring;
  toUpperCase : jsstring -> jsstring;
  toLowerCase_keeps : forall s w,
    Forall lower_stable w -> includes s w = true ->
    includes (toLowerCase s) w = true
}.

(** The mapping on Basic Latin and Latin-1, where every table of the
    source lives. *)
Definition lower_unit (c : N) : N :=
  if is_upper c then (c + 32)%N
  else if ((192 <=? c) && (c <=? 222) && negb (c =? 215))%N then (c + 32)%N
  else c.

Definition lower_latin1 (s : jsstring) : jsstring := map lower_unit s.

Definition upper_unit (c : N) : N :=
  if is_lower c then (c - 32)%N
  else if ((224 <=? c) && (c <=? 254) && negb (c =? 247))%N then (c - 32)%N
  else c.

Definition upper_latin1 (s : jsstring) : jsstring := map upper_unit s.

(** ** Untyped values, as a tool call delivers them *)

Inductive JSValue :=
| JSUndefined
| JSNull
| JSBool (b : bool)
| JSNumber (x : float)
| JSString (s : jsstring)
| JSObject (props : list (string * JSValue)).

Inductive JSType :=
| TUndefined | TObject | TBoolean | TNumber | TString.

Definition typeof (v : JSValue) : JSType :=
  match v with
  | JSUndefined => TUndefined
  | JSNull | JSObject _ => TObject
  | JSBool _ => TBoolean
  | JSNumber _ => TNumber
  | JSString _ => TString
  end.

(** [typeof v === 'string'] and the string a value is once that holds. *)
Definition isString (v : JSValue) : bool :=
  match typeof v with TString => true | _ => false end.

Definition asString (v : JSValue) : jsstring :=
  match v with JSString s => s | _ => [] end.

(** [!!v] *)
Definition truthy (v : JSValue) : bool :=
  match v with
  | JSUndefined | JSNull => false
  | JSBool b => b
  | JSNumber x =>
      match Prim2SF x with
      | S754_zero _ | S754_nan => false
      | _ => true
      end
  | JSString s => match s with [] => false | _ => true end
  | JSObject _ => true
  end.

Fixpoint lookup (p : string) (props : list (string * JSValue)) : JSValue :=
  match props with
  | [] => JSUndefined
  | (k, v) :: rest => if String.eqb k p then v else lookup p rest
  end.

(** [v.p]: reading a property of [undefined] or [null] throws a
    [TypeError] ([None]); a primitive has no such property of its own. *)
Definition getProp (v : JSValue) (p : string) : option JSValue :=
  match v with
  | JSUndefined | JSNull => None
  | JSObject props => Some (lookup p props)
  | _ => Some JSUndefined
  end.

End JS.

Import JS.

(* ================================================================== *)
(** * types.ts                                                          *)
(* ================================================================== *)

Inductive TaskType :=
| criativa | tecnica | analitica | educacional
| debate | documentacao | codigo | mista.

Inductive ComplexityLevel := basico | intermediario | avancado | expert.

Inductive PromptingTechnique :=
| role_prompting | emotion_prompting | iq_attribution
| fake_past_consistency | fake_audience | obviously | false_restriction
| version_2 | someone_disagrees | bet_100_dollars | simtom | re2 | rar.

Scheme Equality for TaskType.
Scheme Equality for ComplexityLevel.
Scheme Equality for PromptingTechnique.

(** The string each enum value is at run time (used when a value is
    interpolated into a template). *)
Definition TaskType_str (t : TaskType) : jsstring :=
  match t with
  | criativa => js "criativa" | tecnica => js "tecnica"
  | analitica => js "analitica" | educacional => js "educacional"
  | debate => js "debate" | documentacao => js "documentacao"
  | codigo => js "codigo" | mista => js "mista"
  end.

Definition ComplexityLevel_str (c : ComplexityLevel) : jsstring :=
  match c with
  | basico => js "basico" | intermediario => js "intermediario"
  | avancado => js "avancado" | expert => js "expert"
  end.

Definition PromptingTechnique_str (t : PromptingTechnique) : jsstring :=
  match t with
  | role_prompting => js "role_prompting"
  | emotion_prompting => js "emotion_prompting"
  | iq_attribution => js "iq_attribution"
  | fake_past_consistency => js "fake_past_consistency"
  | fake_audience => js "fake_audience"
  | obviously => js "obviously"
  | false_restriction => js "false_restriction"
  | version_2 => js "version_2"
  | someone_disagrees => js "someone_disagrees"
  | bet_100_dollars => js "bet_100_dollars"
  | simtom => js "simtom"
  | re2 => js "re2"
  | rar => js "rar"
  end.

Record AnalysisResult := {
  taskType : TaskType;
  mainObjective : jsstring;
  complexityLevel : ComplexityLevel;
  implicitContext : list jsstring;
  targetAudience : jsstring;
  suggestedIQ : Z;
  keywords : list jsstring;
  detectedDomain : option jsstring;
  intentAnalysis : option jsstring
}.

Record TechniqueApplication := {
  technique : PromptingTechnique;
  reason : jsstring;
  implementation : jsstring
}.

(** [context] is declared [string | undefined]; the value arrives from the
    tool call unchecked and is only ever tested for truthiness. *)
Record OptimizationRequest := {
  user_request : jsstring;
  context : JSValue
}.

Record CognitiveAnalysisProtocol := {
  taskIdentification : jsstring;
  complexityAssessment : jsstring;
  objectiveClarity : jsstring
}.

Record Directive := {
  step : Z;
  directive : jsstring;
  directiveTechnique : jsstring;
  reasoning : jsstring
}.

Record StructuralElements := {
  contextRequirements : list jsstring;
  constraintsToObserve : list jsstring;
  outputFormatGuidelines : list jsstring
}.

(** The constant member [type: 'meta_instructions'] is left out. *)
Record MetaInstructionFramework := {
  cognitiveAnalysisProtocol : CognitiveAnalysisProtocol;
  promptEngineeringDirectives : list Directive;
  requiredStructuralElements : StructuralElements;
  thinkingProtocol : list jsstring;
  originalRequest : jsstring;
  generationDirective : jsstring
}.

Record Validation := {
  isValid : bool;
  issues : list jsstring
}.

(* ================================================================== *)
(** * analyzer.ts: RequestAnalyzer                                      *)
(* ================================================================== *)

Module RequestAnalyzer.
Section WithCaseMapping.
Context `{CaseMapping}.

(** The [patterns] table of [identifyTaskType], in declaration order. *)
Definition patterns : list (TaskType * list jsstring) :=
  [ (codigo, map js ["código"; "programa"; "função"; "class"; "implementar";
                     "debug"; "refactor"; "bug"; "script"; "api"]);
    (tecnica, map js ["como fazer"; "técnica"; "método"; "processo";
                      "algoritmo"; "otimizar"; "configurar"; "setup"]);
    (criativa, map js ["criar"; "design"; "arte"; "criativo"; "inovador";
                       "imaginar"; "inventar"; "ascii art"; "logo"]);
    (analitica, map js ["analisar"; "comparar"; "avaliar"; "qual melhor";
                        "diferença"; "prós e contras"; "vs"]);
    (educacional, map js ["explicar"; "ensinar"; "como funciona"; "o que é";
                          "tutorial"; "aprender"; "entender"]);
    (debate, map js ["discutir"; "argumentar"; "opinião"; "debate";
                     "controverso"; "melhor"; "pior"]);
    (documentacao, map js ["documentar"; "documentação"; "readme";
                           "comentar"; "especificar"; "descrever"]);
    (mista, []) ].

(** [words.filter(w => text.includes(w)).length] *)
Definition hits (text : jsstring) (words : list jsstring) : Z :=
  count (filter (fun w => includes text w) words).

(** The entries of [scores]: the types whose list matched, in table order. *)
Definition taskScores (lowerRequest : jsstring) : list (TaskType * Z) :=
  flat_map (fun '(type, keywords) =>
              let score := hits lowerRequest keywords in
              if 0 <? score then [(type, score)] else [])
           patterns.

Definition identifyTaskType (request : jsstring) : TaskType :=
  let lowerRequest := toLowerCase request in
  let scores := taskScores lowerRequest in
  if 2 <? count scores then mista
  else
    match sort (fun a b => snd b - snd a) scores with
    | (type, _) :: _ => type
    | [] => tecnica
    end.

Definition expertIndicators : list jsstring :=
  map js ["avançado"; "expert"; "complexo"; "otimizado"; "performance";
          "arquitetura"; "escalável"; "3d"; "algoritmo"].
Definition intermediateIndicators : list jsstring :=
  map js ["melhorar"; "refatorar"; "estruturar"; "organizar"; "integrar";
          "api"].
Definition basicIndicators : list jsstring :=
  map js ["simples"; "básico"; "iniciante"; "exemplo"; "hello world";
          "tutorial"].

Definition codeTerms : list jsstring :=
  map js ["class"; "function"; "async"; "await"; "api"; "database";
          "server"].

(** One of the alternatives matches at the start of [s] and is followed by
    a word boundary. *)
Definition codeTermHere (s : jsstring) : bool :=
  existsb (fun w => match match_ci w s with
                    | Some [] => true
                    | Some (c :: _) => negb (is_word c)
                    | None => false
                    end) codeTerms.

(** [/\b(class|function|async|await|api|database|server)\b/i.test(s)];
    [prev] is whether the code unit before [s] is a word character. *)
Fixpoint codeTermFrom (prev : bool) (s : jsstring) : bool :=
  (negb prev && codeTermHere s) ||
  match s with
  | [] => false
  | c :: s' => codeTermFrom (is_word c) s'
  end.

Definition hasCodeTerms (request : jsstring) : bool :=
  codeTermFrom false request.

Definition wordCount (request : jsstring) : Z := count (split_ws request).

Definition assessComplexity (request : jsstring) : ComplexityLevel :=
  let lowerRequest := toLowerCase request in
  let expertScore := hits lowerRequest expertIndicators in
  let intermediateScore := hits lowerRequest intermediateIndicators in
  let basicScore := hits lowerRequest basicIndicators in
  if (0 <? expertScore) || ((30 <? wordCount request) && hasCodeTerms request)
  then expert
  else if (0 <? intermediateScore) || (20 <? wordCount request) then avancado
  else if 0 <? basicScore then basico
  else intermediario.

Definition stopWords : list jsstring :=
  map js ["para"; "isso"; "esse"; "este"; "como"; "fazer"; "criar"; "você";
          "pode"; "deve"; "quero"; "preciso"].

Definition extractKeywords (request : jsstring) : list jsstring :=
  let words :=
    filter (fun word => negb (mem word stopWords))
      (filter (fun word => 4 <? len word)
         (split_ws (toLowerCase request))) in
  slice0 5 (dedup words).

Record FirstReading := {
  fr_taskType : TaskType;
  fr_complexityLevel : ComplexityLevel;
  fr_keywords : list jsstring;
  hasContext : bool
}.

Definition firstReading (userRequest : jsstring) (context : JSValue)
  : FirstReading :=
  {| fr_taskType := identifyTaskType userRequest;
     fr_complexityLevel := assessComplexity userRequest;
     fr_keywords := extractKeywords userRequest;
     hasContext := truthy context |}.

(** Every template is non-empty, so the fallback of
    [objectiveTemplates[taskType] || ...] is never taken. *)
Definition identifyMainObjective (request : jsstring) (fr : FirstReading)
  : jsstring :=
  let keywords := fr_keywords fr in
  match fr_taskType fr with
  | codigo =>
      js "Implementar código para " ++ join (js " e ") (slice0 2 keywords)
  | tecnica =>
      js "Explicar técnica/método de " ++ first_or keywords (js "processo")
  | criativa =>
      js "Criar solução criativa para " ++ first_or keywords (js "projeto")
  | analitica =>
      js "Analisar e comparar " ++ join (js " vs ") (slice0 2 keywords)
  | educacional =>
      js "Ensinar conceito de " ++ first_or keywords (js "tópico")
  | debate =>
      js "Debater argumentos sobre " ++ first_or keywords (js "tema")
  | documentacao =>
      js "Documentar " ++ first_or keywords (js "projeto")
  | mista =>
      js "Realizar tarefa complexa envolvendo "
        ++ join (js " e ") (slice0 2 keywords)
  end.

Definition extractImplicitContext (request : jsstring) (fr : FirstReading)
  : list jsstring :=
  let lowerRequest := toLowerCase request in
  let has w := includes lowerRequest (js w) in
  (if has "node" || has "javascript" || has "npm"
   then [js "Ambiente Node.js/JavaScript"] else [])
  ++ (if has "python" then [js "Ambiente Python"] else [])
  ++ (if has "react" || has "vue" || has "angular"
      then [js "Frontend framework"] else [])
  ++ (if has "produção" || has "production"
      then [js "Código para produção - alta qualidade necessária"] else [])
  ++ (if has "aprender" || has "estudar"
      then [js "Finalidade educacional"] else [])
  ++ (if ComplexityLevel_beq (fr_complexityLevel fr) expert
      then [js "Necessita abordagem profissional e otimizada"] else []).

Definition identifyAudience (request : jsstring) (fr : FirstReading)
  : jsstring :=
  let lowerRequest := toLowerCase request in
  let has w := includes lowerRequest (js w) in
  if has "cliente" || has "apresentar" then js "Cliente/Stakeholder"
  else if has "time" || has "equipe" then js "Equipe de desenvolvimento"
  else if has "aprender" || has "estudar" then js "Estudante/Aprendiz"
  else if ComplexityLevel_beq (fr_complexityLevel fr) expert
  then js "Desenvolvedor experiente"
  else js "Desenvolvedor geral".

Definition suggestIQLevel (complexity : ComplexityLevel) : Z :=
  match complexity with
  | basico => 130
  | intermediario => 140
  | avancado => 150
  | expert => 160
  end.

Definition secondReading (userRequest : jsstring) (fr : FirstReading)
  : AnalysisResult :=
  {| taskType := fr_taskType fr;
     mainObjective := identifyMainObjective userRequest fr;
     complexityLevel := fr_complexityLevel fr;
     implicitContext := extractImplicitContext userRequest fr;
     targetAudience := identifyAudience userRequest fr;
     suggestedIQ := suggestIQLevel (fr_complexityLevel fr);
     keywords := fr_keywords fr;
     detectedDomain := None;
     intentAnalysis := None |}.

Definition analyze (userRequest : jsstring) (context : JSValue)
  : AnalysisResult :=
  secondReading userRequest (firstReading userRequest context).

End WithCaseMapping.
End RequestAnalyzer.

(* ================================================================== *)
(** * techniques.ts: the technique registry                             *)
(* ================================================================== *)

Record TechniqueDefinition := {
  name : PromptingTechnique;
  displayName : jsstring;
  description : jsstring;
  whenToUse : list jsstring;
  example : jsstring;
  isMandatory : bool
}.

Definition TECHNIQUES (t : PromptingTechnique) : TechniqueDefinition :=
  let def d desc w e m :=
    {| name := t; displayName := js d; description := js desc;
       whenToUse := map js w; example := js e; isMandatory := m |} in
  match t with
  | role_prompting =>
      def "Role Prompting" "Atribui um papel específico e relevante à IA"
          ["sempre"; "qualquer tarefa"]
          "Você é um desenvolvedor senior especializado em..." true
  | emotion_prompting =>
      def "Emotion Prompting"
          "Adiciona peso emocional para aumentar a atenção"
          ["tarefas críticas"; "alta precisão necessária"]
          "Isso é crucial para o projeto e precisa ser perfeito" true
  | iq_attribution =>
      def "Atribuir QI/Expertise" "Define o nível de sofisticação esperado"
          ["sempre"; "definir nível de expertise"]
          "com QI 160 e profundo conhecimento em..." true
  | fake_past_consistency =>
      def "Fingir Consistência Passada" "Cria contexto de conversa prévia"
          ["tópicos técnicos complexos"; "continuidade contextual"]
          "Você me explicou anteriormente sobre renderização 3D..." false
  | fake_audience =>
      def "Finja uma Plateia"
          "Define uma audiência específica para adaptar a explicação"
          ["explicações didáticas"; "apresentações"; "ensino"]
          "Explique como se apresentasse para estudantes de graduação" false
  | obviously =>
      def "Obviamente..."
          "Usa afirmação controversa para gerar análise crítica"
          ["debates"; "comparações"; "análise crítica"]
          "Obviamente React é melhor que Vue, certo?" false
  | false_restriction =>
      def "Restrição Falsa"
          "Impõe limitações criativas para forçar analogias"
          ["criatividade"; "explicações analogias"; "inovação"]
          "Explique usando apenas analogias de culinária" false
  | version_2 =>
      def "Versão 2.0" "Solicita iteração melhorada de algo existente"
          ["iteração"; "melhoria"; "inovação"]
          "Crie uma Versão 2.0 com abordagem completamente nova" false
  | someone_disagrees =>
      def "Alguém Discorda" "Apresenta visão oposta para análise profunda"
          ["análise crítica"; "validação de ideias"; "debate"]
          "Meu colega diz que microserviços são overhead desnecessário" false
  | bet_100_dollars =>
      def "Apostar 100 Dólares" "Cria aposta para validação rigorosa"
          ["validação técnica"; "code review"; "precisão extrema"]
          "Vamos apostar $100 que esse código está bug-free" false
  | simtom =>
      def "SimToM (Theory of Mind)"
          "Adota múltiplas perspectivas de diferentes entidades"
          ["análise multiperspectiva"; "stakeholders"; "UX"]
          "Analise da perspectiva do usuário, do desenvolvedor e do negócio"
          false
  | re2 =>
      def "RE2 (Leia Duas Vezes)" "Força releitura e análise profunda"
          ["análise complexa"; "compreensão profunda"]
          "Leia o requisito duas vezes antes de responder" false
  | rar =>
      def "RaR (Rephrase and Respond)"
          "Reformula a pergunta antes de responder"
          ["clarificação"; "ambiguidade"; "confirmação"]
          "Primeiro reformule o que entendeu, depois responda" false
  end.

(** The keys of [TECHNIQUES], in declaration order. *)
Definition allTechniques : list PromptingTechnique :=
  [ role_prompting; emotion_prompting; iq_attribution; fake_past_consistency;
    fake_audience; obviously; false_restriction; version_2; someone_disagrees;
    bet_100_dollars; simtom; re2; rar ].

Definition MANDATORY_TECHNIQUES : list PromptingTechnique :=
  map name (filter isMandatory (map TECHNIQUES allTechniques)).

Definition SITUATIONAL_TECHNIQUES : list PromptingTechnique :=
  map name (filter (fun t => negb (isMandatory t)) (map TECHNIQUES allTechniques)).

(* ================================================================== *)
(** * technique-selector.ts: TechniqueSelector                          *)
(* ================================================================== *)

Module TechniqueSelector.
Section WithCaseMapping.
Context `{CaseMapping}.

Definition generateRole (analysis : AnalysisResult) : jsstring :=
  let role :=
    match taskType analysis with
    | codigo => js "desenvolvedor senior especializado"
    | tecnica => js "especialista técnico"
    | criativa => js "designer criativo e inovador"
    | analitica => js "analista especializado"
    | educacional => js "educador experiente"
    | debate => js "debatedor e pensador crítico"
    | documentacao => js "technical writer especializado"
    | mista => js "profissional multidisciplinar"
    end in
  let domain := first_or (keywords analysis) (js "sua área") in
  js "Você é um " ++ role ++ js " em " ++ domain.

Definition mentions (w : string) (l : list jsstring) : bool :=
  existsb (fun c => includes c (js w)) l.

Definition shouldUseEmotionPrompting (analysis : AnalysisResult) : bool :=
  negb (ComplexityLevel_beq (complexityLevel analysis) basico) &&
  (TaskType_beq (taskType analysis) codigo ||
   TaskType_beq (taskType analysis) tecnica ||
   mentions "produção" (implicitContext analysis)).

Definition generateEmotionPrompt (analysis : AnalysisResult) : jsstring :=
  if mentions "produção" (implicitContext analysis)
  then js "Isso é crítico para produção e requer máxima qualidade e atenção aos detalhes"
  else if ComplexityLevel_beq (complexityLevel analysis) expert
  then js "Esse é um desafio técnico importante que demanda precisão e expertise"
  else js "Isso é importante e precisa ser feito com cuidado e precisão".

Definition generatePastConsistency (analysis : AnalysisResult) : jsstring :=
  let topic := first_or (keywords analysis) (js "esse tópico") in
  js "Você me explicou anteriormente sobre " ++ topic
    ++ js ", mas agora preciso aplicar especificamente".

Definition restrictions : list jsstring :=
  map js [ "Use conceitos de design moderno e minimalista";
           "Aplique princípios de UX/UI de alta qualidade";
           "Pense em termos de experiência do usuário excepcional" ].

(** [rnd] stands for the draw [Math.floor(Math.random() * 3)]: any of
    0, 1, 2. *)
Definition generateFalseRestriction (rnd : nat) (analysis : AnalysisResult)
  : jsstring :=
  nth (rnd mod 3)%nat restrictions [].

Definition generateDisagreement (analysis : AnalysisResult) : jsstring :=
  let topic := join (js " e ") (slice0 2 (keywords analysis)) in
  js "Alguns especialistas argumentam contra essa abordagem de " ++ topic.

Definition applyMandatoryTechniques (analysis : AnalysisResult)
  : list TechniqueApplication :=
  [ {| technique := role_prompting;
       reason := js "Estabelece expertise e contexto profissional adequado";
       implementation := generateRole analysis |};
    {| technique := iq_attribution;
       reason := js "Define nível de sofisticação "
                   ++ ComplexityLevel_str (complexityLevel analysis);
       implementation := js "com QI " ++ of_Z (suggestedIQ analysis) |} ]
  ++ (if shouldUseEmotionPrompting analysis
      then [ {| technique := emotion_prompting;
                reason := js "Aumenta atenção e cuidado na resposta";
                implementation := generateEmotionPrompt analysis |} ]
      else []).

Definition calculateRelevanceScore (application : TechniqueApplication)
  (analysis : AnalysisResult) : Z :=
  let t := technique application in
  (if ComplexityLevel_beq (complexityLevel analysis) expert &&
      existsb (PromptingTechnique_beq t)
              [fake_past_consistency; bet_100_dollars; simtom]
   then 3 else 0)
  +
  (let matchingTasks :=
     match t with
     | fake_audience => [educacional]
     | false_restriction => [criativa]
     | someone_disagrees => [analitica; debate]
     | bet_100_dollars => [codigo]
     | simtom => [mista]
     | _ => []
     end in
   if existsb (TaskType_beq (taskType analysis)) matchingTasks then 5 else 0).

Definition rankCandidates (candidates : list TechniqueApplication)
  (analysis : AnalysisResult) : list TechniqueApplication :=
  sort (fun a b => calculateRelevanceScore b analysis
                   - calculateRelevanceScore a analysis) candidates.

Definition candidates (rnd : nat) (analysis : AnalysisResult)
  : list TechniqueApplication :=
  let tt := taskType analysis in
  (if ComplexityLevel_beq (complexityLevel analysis) expert
      || TaskType_beq tt tecnica
   then [ {| technique := fake_past_consistency;
             reason := js "Estabelece continuidade para tópico técnico complexo";
             implementation := generatePastConsistency analysis |} ]
   else [])
  ++ (if TaskType_beq tt educacional
         || includes (targetAudience analysis) (js "Estudante")
      then [ {| technique := fake_audience;
                reason := js "Adapta explicação para audiência específica";
                implementation :=
                  js "Explique como se apresentasse para "
                    ++ toLowerCase (targetAudience analysis) |} ]
      else [])
  ++ (if TaskType_beq tt criativa
      then [ {| technique := false_restriction;
                reason := js "Força pensamento criativo através de restrições";
                implementation := generateFalseRestriction rnd analysis |} ]
      else [])
  ++ (if TaskType_beq tt analitica || TaskType_beq tt debate
      then [ {| technique := someone_disagrees;
                reason := js "Estimula análise crítica através de perspectiva oposta";
                implementation := generateDisagreement analysis |} ]
      else [])
  ++ (if TaskType_beq tt codigo
         && negb (ComplexityLevel_beq (complexityLevel analysis) basico)
      then [ {| technique := bet_100_dollars;
                reason := js "Garante validação técnica rigorosa";
                implementation :=
                  js "Vamos validar com precisão extrema, como se apostássemos nisso" |} ]
      else [])
  ++ (if TaskType_beq tt mista || mentions "Cliente" (implicitContext analysis)
      then [ {| technique := simtom;
                reason := js "Analisa sob múltiplas perspectivas de stakeholders";
                implementation :=
                  js "Considere as perspectivas do usuário final, desenvolvedor e negócio" |} ]
      else [])
  ++ (if (count (keywords analysis) <? 3)
         || includes (mainObjective analysis) (js "Resolver solicitação")
      then [ {| technique := rar;
                reason := js "Clarifica entendimento antes de responder";
                implementation :=
                  js "Primeiro confirme o entendimento reformulando o pedido" |} ]
      else []).

Definition selectSituationalTechniques (rnd : nat) (analysis : AnalysisResult)
  : list TechniqueApplication :=
  rankCandidates (candidates rnd analysis) analysis.

Definition selectTechniques (rnd : nat) (analysis : AnalysisResult)
  : list TechniqueApplication :=
  applyMandatoryTechniques analysis
  ++ slice0 2 (selectSituationalTechniques rnd analysis).

End WithCaseMapping.
End TechniqueSelector.

(* ================================================================== *)
(** * meta-instruction-builder.ts: MetaInstructionBuilder               *)
(* ================================================================== *)

Module MetaInstructionBuilder.

Definition translateTaskType (type : TaskType) : jsstring :=
  match type with
  | codigo => js "code/programming"
  | tecnica => js "technical/methodological"
  | criativa => js "creative"
  | analitica => js "analytical"
  | educacional => js "educational"
  | debate => js "debate/argumentation"
  | documentacao => js "documentation"
  | mista => js "mixed/multidisciplinary"
  end.

Definition getApproachType (type : TaskType) : jsstring :=
  match type with
  | codigo => js "implementation-focused"
  | tecnica => js "methodological"
  | criativa => js "innovative and design-thinking"
  | analitica => js "comparative and evidence-based"
  | educacional => js "pedagogical"
  | debate => js "argumentative and critical"
  | documentacao => js "descriptive and comprehensive"
  | mista => js "holistic"
  end.

Definition buildCognitiveProtocol (analysis : AnalysisResult)
  : CognitiveAnalysisProtocol :=
  {| taskIdentification :=
       js "Identify this as a " ++ translateTaskType (taskType analysis)
         ++ js " task requiring " ++ getApproachType (taskType analysis)
         ++ js " approach";
     complexityAssessment :=
       js "Assess complexity level as "
         ++ ComplexityLevel_str (complexityLevel analysis)
         ++ js " requiring " ++ of_Z (suggestedIQ analysis)
         ++ js "+ IQ attribution";
     objectiveClarity :=
       js "Clarify the main objective: " ++ mainObjective analysis |}.

Definition getRoleInstruction (analysis : AnalysisResult) : jsstring :=
  let role :=
    match taskType analysis with
    | codigo => js "Assume the role of a senior software developer specialized in"
    | tecnica => js "Assume the role of a technical specialist in"
    | criativa => js "Assume the role of a creative designer and innovator in"
    | analitica => js "Assume the role of an analytical specialist in"
    | educacional => js "Assume the role of an experienced educator in"
    | debate => js "Assume the role of a critical thinker and debater in"
    | documentacao => js "Assume the role of a specialized technical writer in"
    | mista => js "Assume the role of a multidisciplinary professional in"
    end in
  let domain := first_or (keywords analysis) (js "the relevant domain") in
  role ++ js " " ++ domain.

(** A double-quoted phrase inside a template. *)
Definition quoted (s : string) : jsstring := [34%N] ++ js s ++ [34%N].

(** [instructionMap[tech.technique] || '']: the techniques without an
    entry give the empty string. *)
Definition getTechniqueInstruction (tech : TechniqueApplication)
  (analysis : AnalysisResult) : jsstring :=
  match technique tech with
  | fake_past_consistency =>
      js "Apply " ++ quoted "Fake Past Consistency" ++ js " by mentioning previous work or discussion about "
        ++ first_or (keywords analysis) (js "this topic")
  | emotion_prompting =>
      js "Add emotional weight using " ++ quoted "Emotion Prompting" ++ js " - emphasize importance and critical nature of the task"
  | fake_audience =>
      js "Include " ++ quoted "Fake Audience" ++ js " technique - frame as if presenting to "
        ++ targetAudience analysis
  | obviously =>
      js "Use " ++ quoted "Obviously" ++ js " technique to frame certain aspects as self-evident"
  | false_restriction =>
      js "Apply creative constraints using " ++ quoted "False Restriction" ++ js " - "
        ++ implementation tech
  | version_2 => js "Reference this as version 2.0 of a solution"
  | someone_disagrees =>
      js "Use " ++ quoted "Someone Disagrees" ++ js " technique - acknowledge opposing viewpoint: "
        ++ implementation tech
  | bet_100_dollars =>
      js "Apply " ++ quoted "Bet $100" ++ js " technique to emphasize validation and precision"
  | simtom =>
      js "Include " ++ quoted "SimToM" ++ js " (Simulation Theory of Mind) - consider multiple stakeholder perspectives"
  | rar =>
      js "Use " ++ quoted "RaR" ++ js " (Rephrase and Respond) - first rephrase the request to confirm understanding"
  | re2 => js "Apply " ++ quoted "RE2" ++ js " (Read Twice) methodology for deeper analysis"
  | role_prompting | iq_attribution => []
  end.

Definition getStructureInstruction (analysis : AnalysisResult) : jsstring :=
  match taskType analysis with
  | codigo =>
      js "Structure the prompt in sections: Role & Context, Task Description, Technical Requirements, Quality Standards, Expected Output"
  | educacional =>
      js "Structure the prompt in sections: Expert Role, Learning Objective, Explanation Approach, Examples Required, Validation Criteria"
  | _ =>
      js "Structure the prompt in clear sections: Context, Objective, Requirements, Constraints, Expected Output Format"
  end.

(** The loop over [techniques] of [buildEngineeringDirectives]; [stepNumber]
    is the counter before the loop, the result carries it after the loop. *)
Fixpoint techniqueDirectives (analysis : AnalysisResult) (stepNumber : Z)
  (techniques : list TechniqueApplication) : list Directive * Z :=
  match techniques with
  | [] => ([], stepNumber)
  | tech :: rest =>
    if PromptingTechnique_beq (technique tech) role_prompting
       || PromptingTechnique_beq (technique tech) iq_attribution
    then techniqueDirectives analysis stepNumber rest
    else
      match getTechniqueInstruction tech analysis with
      | [] => techniqueDirectives analysis stepNumber rest
      | instruction =>
        let '(ds, n) := techniqueDirectives analysis (stepNumber + 1) rest in
        ({| step := stepNumber;
            directive := instruction;
            directiveTechnique := displayName (TECHNIQUES (technique tech));
            reasoning := reason tech |} :: ds, n)
      end
  end.

Definition buildEngineeringDirectives (analysis : AnalysisResult)
  (techniques : list TechniqueApplication) : list Directive :=
  let '(ds, n) := techniqueDirectives analysis 3 techniques in
  [ {| step := 1;
       directive := getRoleInstruction analysis;
       directiveTechnique := js "Role Prompting";
       reasoning := js "Establish domain expertise and professional context" |};
    {| step := 2;
       directive :=
         js "Apply IQ Attribution technique by stating you have IQ "
           ++ of_Z (suggestedIQ analysis) ++ js " in this domain";
       directiveTechnique := js "IQ Attribution";
       reasoning :=
         js "Sets sophistication level appropriate for "
           ++ ComplexityLevel_str (complexityLevel analysis)
           ++ js " complexity" |} ]
  ++ ds
  ++ [ {| step := n;
          directive := getStructureInstruction analysis;
          directiveTechnique := js "Structural Organization";
          reasoning := js "Ensures clear organization and readability" |} ].

Definition getContextRequirements (analysis : AnalysisResult)
  : list jsstring :=
  [ js "Domain: " ++ join (js ", ") (keywords analysis);
    js "Complexity Level: " ++ ComplexityLevel_str (complexityLevel analysis);
    js "Target Audience: " ++ targetAudience analysis ]
  ++ map (fun c => js "Context: " ++ c) (implicitContext analysis).

Definition getConstraints (analysis : AnalysisResult)
  (techniques : list TechniqueApplication) : list jsstring :=
  (if TaskType_beq (taskType analysis) codigo
   then [ js "Code must be complete and immediately executable";
          js "Include proper error handling";
          js "Follow best practices and clean code principles" ]
   else [])
  ++ (if ComplexityLevel_beq (complexityLevel analysis) expert
         || ComplexityLevel_beq (complexityLevel analysis) avancado
      then [ js "Solution must be optimized and production-ready";
             js "Consider edge cases and scalability" ]
      else [])
  ++ match find (fun t => PromptingTechnique_beq (technique t) false_restriction)
                techniques with
     | Some restrictionTech => [implementation restrictionTech]
     | None => []
     end.

Definition getFormatGuidelines (analysis : AnalysisResult) : list jsstring :=
  match taskType analysis with
  | codigo =>
      [ js "Provide complete, runnable code";
        js "Include explanatory comments";
        js "Add usage examples when appropriate" ]
  | educacional =>
      [ js "Clear, didactic explanation";
        js "Practical examples";
        js "Highlighted key concepts" ]
  | analitica =>
      [ js "Detailed comparative analysis";
        js "Pros and cons for each option";
        js "Evidence-based recommendation" ]
  | _ =>
      [ js "Clear and structured response";
        js "Actionable information";
        js "Examples when relevant" ]
  end.

Definition buildStructuralRequirements (analysis : AnalysisResult)
  (techniques : list TechniqueApplication) : StructuralElements :=
  {| contextRequirements := getContextRequirements analysis;
     constraintsToObserve := getConstraints analysis techniques;
     outputFormatGuidelines := getFormatGuidelines analysis |}.

Definition buildThinkingProtocol (analysis : AnalysisResult) : list jsstring :=
  [ js "Step 1: Read and analyze the original request carefully";
    js "Step 2: Identify the core problem and implicit requirements";
    js "Step 3: Consider the domain expertise needed" ]
  ++ match taskType analysis with
     | codigo =>
         [ js "Step 4: Think about architecture, edge cases, and best practices";
           js "Step 5: Consider error handling and maintainability" ]
     | criativa =>
         [ js "Step 4: Think about innovative approaches and creative constraints";
           js "Step 5: Consider aesthetic and functional balance" ]
     | analitica =>
         [ js "Step 4: Analyze multiple perspectives and trade-offs";
           js "Step 5: Formulate evidence-based conclusions" ]
     | _ => []
     end
  ++ [ js "Step 6: Structure the prompt with clear sections and requirements";
       js "Step 7: Validate that all meta-instructions are incorporated" ].

Definition buildGenerationDirective (analysis : AnalysisResult) : jsstring :=
  let taskDesc := translateTaskType (taskType analysis) in
  js "Based on these meta-instructions, generate an optimized prompt that incorporates all the directives above. The prompt should guide the AI to produce "
    ++ taskDesc ++ js " output with "
    ++ ComplexityLevel_str (complexityLevel analysis)
    ++ js " level sophistication. Remember: you are GENERATING the prompt now, not executing it.".

Definition buildMetaInstructions (originalRequest : jsstring)
  (analysis : AnalysisResult) (techniques : list TechniqueApplication)
  : MetaInstructionFramework :=
  {| cognitiveAnalysisProtocol := buildCognitiveProtocol analysis;
     promptEngineeringDirectives :=
       buildEngineeringDirectives analysis techniques;
     requiredStructuralElements :=
       buildStructuralRequirements analysis techniques;
     thinkingProtocol := buildThinkingProtocol analysis;
     originalRequest := originalRequest;
     generationDirective := buildGenerationDirective analysis |}.

Section WithCaseMapping.
Context `{CaseMapping}.

(** Whether the lower-cased directive names one of the three verbs. *)
Definition instructsGeneration (d : jsstring) : bool :=
  includes (toLowerCase d) (js "generate")
  || includes (toLowerCase d) (js "construct")
  || includes (toLowerCase d) (js "build").

Definition validateMetaInstructions (framework : MetaInstructionFramework)
  : Validation :=
  let issues :=
    (if count (promptEngineeringDirectives framework) =? 0
     then [js "No prompt engineering directives provided"] else [])
    ++ (if negb (instructsGeneration (generationDirective framework))
        then [js "Generation directive does not instruct AI to generate prompt"]
        else [])
    ++ (if count (thinkingProtocol framework) <? 3
        then [js "Thinking protocol is too shallow (minimum 3 steps)"]
        else [])
    ++ (if count (contextRequirements (requiredStructuralElements framework))
           =? 0
        then [js "Missing context requirements"] else []) in
  {| isValid := count issues =? 0; issues := issues |}.

End WithCaseMapping.
End MetaInstructionBuilder.

(* ================================================================== *)
(** * formatter.ts: the justification built by PromptFormatter          *)
(* ================================================================== *)

Record TechniqueJustification := {
  tj_name : jsstring;
  tj_reason : jsstring
}.

Record Justification := {
  justifiedTechniques : list TechniqueJustification;
  expectedImprovements : list jsstring
}.

Module PromptFormatter.

Definition uses (t : PromptingTechnique) (techniques : list TechniqueApplication)
  : bool :=
  existsb (fun a => PromptingTechnique_beq (technique a) t) techniques.

Definition identifyImprovements (analysis : AnalysisResult)
  (techniques : list TechniqueApplication) : list jsstring :=
  (if uses role_prompting techniques
   then [js "Resposta mais contextualizada e profissional"] else [])
  ++ (if uses iq_attribution techniques
      then [js "Profundidade de resposta apropriada para nível "
              ++ ComplexityLevel_str (complexityLevel analysis)]
      else [])
  ++ (if uses emotion_prompting techniques
      then [js "Maior atenção a detalhes e qualidade"] else [])
  ++ match taskType analysis with
     | codigo =>
         [ js "Código mais robusto e bem estruturado";
           js "Melhores práticas aplicadas consistentemente" ]
     | educacional =>
         [ js "Explicação mais clara e didática";
           js "Conceitos mais bem exemplificados" ]
     | _ => []
     end
  ++ (if ComplexityLevel_beq (complexityLevel analysis) expert
      then [ js "Abordagem mais sofisticada e otimizada";
             js "Consideração de edge cases e cenários complexos" ]
      else [])
  ++ (if uses fake_past_consistency techniques
      then [js "Maior coerência e continuidade técnica"] else [])
  ++ (if uses simtom techniques
      then [js "Análise multi-perspectiva mais completa"] else [])
  ++ (if uses bet_100_dollars techniques
      then [js "Validação técnica mais rigorosa"] else []).

Definition buildJustification (techniques : list TechniqueApplication)
  (analysis : AnalysisResult) : Justification :=
  {| justifiedTechniques :=
       map (fun t => {| tj_name := displayName (TECHNIQUES (technique t));
                        tj_reason := reason t |}) techniques;
     expectedImprovements := identifyImprovements analysis techniques |}.

End PromptFormatter.

(* ================================================================== *)
(** * optimizer.ts: PromptOptimizer                                     *)
(* ================================================================== *)

(** The [analysis] member of [OptimizationResult]. *)
Record ResultAnalysis := {
  ra_originalRequest : jsstring;
  ra_taskType : TaskType;
  identifiedObjective : jsstring;
  appliedTechniques : list PromptingTechnique;
  ra_detectedDomain : option jsstring
}.

(** The optional [qualityScore] member of [OptimizationResult]. *)
Record ResultQualityScore := {
  rq_overall : Z;
  rq_confidence : jsstring;
  rq_breakdown : list (jsstring * Z)
}.

(** Optional members are [None] when the object has no such property. *)
Record OptimizationResult := {
  analysis : ResultAnalysis;
  metaInstructions : MetaInstructionFramework;
  technicalJustification : Justification;
  qualityScore : option ResultQualityScore;
  fewShotExamples : option jsstring
}.

Module PromptOptimizer.
Section WithCaseMapping.
Context `{CaseMapping}.

Definition optimize (rnd : nat) (request : OptimizationRequest)
  : OptimizationResult :=
  let analysis :=
    RequestAnalyzer.analyze (user_request request) (context request) in
  let techniques := TechniqueSelector.selectTechniques rnd analysis in
  let metaInstructions :=
    MetaInstructionBuilder.buildMetaInstructions
      (user_request request) analysis techniques in
  let justification :=
    PromptFormatter.buildJustification techniques analysis in
  {| analysis :=
       {| ra_originalRequest := user_request request;
          ra_taskType := taskType analysis;
          identifiedObjective := mainObjective analysis;
          appliedTechniques := map technique techniques;
          ra_detectedDomain := None |};
     metaInstructions := metaInstructions;
     technicalJustification := justification;
     qualityScore := None;
     fewShotExamples := None |}.

Definition validateResult (result : OptimizationResult) : Validation :=
  let objective := identifiedObjective (analysis result) in
  let n := count (appliedTechniques (analysis result)) in
  let metaValidation :=
    MetaInstructionBuilder.validateMetaInstructions (metaInstructions result) in
  let issues :=
    (if len objective <? 10
     then [js "Objetivo não está claro e bem definido"] else [])
    ++ (if 4 <? n then [js "Muitas técnicas aplicadas (máximo 4)"] else [])
    ++ (if n <? 2 then [js "Poucas técnicas aplicadas (mínimo 2)"] else [])
    ++ (if negb (isValid metaValidation) then issues metaValidation else [])
    ++ (if negb (MetaInstructionBuilder.instructsGeneration
                   (generationDirective (metaInstructions result)))
        then [js "CRITICAL: Meta-instructions must instruct AI to GENERATE prompt, not provide it ready"]
        else []) in
  {| isValid := count issues =? 0; issues := issues |}.

End WithCaseMapping.
End PromptOptimizer.

(* ================================================================== *)
(** * domain-templates.ts: DomainMatcher                                *)
(* ================================================================== *)

(** A template of the catalogue, with the key it is stored under. *)
Record DomainTemplate := {
  key : jsstring;
  domain : jsstring;
  dt_taskType : TaskType;
  roleTemplate : jsstring;
  contextualHints : list jsstring;
  structuralGuidelines : list jsstring;
  commonPitfalls : list jsstring;
  examplePatterns : list jsstring
}.

(** [Object.values(DOMAIN_TEMPLATES)], in declaration order. *)
Definition DOMAIN_TEMPLATES : list DomainTemplate :=
  let t k d tt r hints guidelines pitfalls patterns :=
    {| key := js k; domain := js d; dt_taskType := tt; roleTemplate := js r;
       contextualHints := map js hints;
       structuralGuidelines := map js guidelines;
       commonPitfalls := map js pitfalls;
       examplePatterns := map js patterns |} in
  [
    t "web_frontend" "Frontend Web Development" codigo
      "senior frontend developer specialized in modern web technologies"
      [ "Consider responsive design and mobile-first approach";
        "Think about accessibility (WCAG 2.1 guidelines)";
        "Performance optimization (Core Web Vitals)";
        "SEO implications";
        "Browser compatibility" ]
      [ "Component architecture and reusability";
        "State management strategy";
        "Styling approach (CSS-in-JS, modules, etc)";
        "Performance considerations";
        "Testing strategy" ]
      [ "Avoid inline styles without justification";
        "Consider bundle size impact";
        "Ensure proper error boundaries";
        "Handle loading and error states" ]
      [ "Use TypeScript for type safety";
        "Implement proper prop validation";
        "Follow component composition patterns" ];
    t "web_backend" "Backend Web Development" codigo
      "senior backend developer specialized in scalable architectures"
      [ "Consider scalability and performance";
        "Think about database optimization";
        "API design best practices (RESTful/GraphQL)";
        "Security considerations (OWASP Top 10)";
        "Caching strategies" ]
      [ "Clean architecture principles";
        "Database schema design";
        "API endpoint structure";
        "Error handling and logging";
        "Authentication/Authorization flow" ]
      [ "Avoid N+1 query problems";
        "Prevent SQL injection";
        "Handle rate limiting";
        "Implement proper validation" ]
      [ "Use dependency injection";
        "Implement repository pattern";
        "Apply SOLID principles" ];
    t "machine_learning" "Machine Learning & AI" codigo
      "senior ML engineer with deep understanding of algorithms and model optimization"
      [ "Consider data preprocessing requirements";
        "Think about model interpretability";
        "Evaluate computational complexity";
        "Address bias and fairness";
        "Plan for model monitoring" ]
      [ "Data pipeline architecture";
        "Model selection rationale";
        "Hyperparameter tuning strategy";
        "Evaluation metrics selection";
        "Deployment considerations" ]
      [ "Avoid data leakage";
        "Prevent overfitting";
        "Handle class imbalance";
        "Consider edge cases in production" ]
      [ "Use cross-validation properly";
        "Implement proper train/val/test splits";
        "Document model assumptions" ];
    t "data_analysis" "Data Analysis & Visualization" analitica
      "senior data analyst specialized in statistical analysis and visualization"
      [ "Consider statistical significance";
        "Think about data quality and outliers";
        "Choose appropriate visualization types";
        "Address missing data";
        "Ensure reproducibility" ]
      [ "Exploratory data analysis steps";
        "Statistical test selection";
        "Visualization design principles";
        "Interpretation guidelines";
        "Reporting format" ]
      [ "Avoid correlation-causation confusion";
        "Be aware of Simpson's paradox";
        "Handle missing data appropriately";
        "Choose correct statistical tests" ]
      [ "Document data transformations";
        "Provide context for metrics";
        "Include confidence intervals" ];
    t "devops" "DevOps & Infrastructure" tecnica
      "senior DevOps engineer specialized in cloud infrastructure and automation"
      [ "Consider infrastructure as code practices";
        "Think about CI/CD pipeline optimization";
        "Evaluate cost implications";
        "Plan for disaster recovery";
        "Address security compliance" ]
      [ "Infrastructure architecture";
        "Deployment strategy";
        "Monitoring and alerting setup";
        "Backup and recovery procedures";
        "Security hardening steps" ]
      [ "Avoid hardcoded credentials";
        "Prevent configuration drift";
        "Handle secrets management";
        "Implement proper logging" ]
      [ "Use declarative configurations";
        "Implement blue-green deployments";
        "Apply principle of least privilege" ];
    t "security" "Cybersecurity & Application Security" tecnica
      "senior security engineer specialized in application and infrastructure security"
      [ "Consider OWASP Top 10 vulnerabilities";
        "Think about defense in depth";
        "Evaluate attack surface";
        "Plan for incident response";
        "Address compliance requirements" ]
      [ "Threat modeling approach";
        "Security controls implementation";
        "Vulnerability assessment process";
        "Security testing strategy";
        "Documentation requirements" ]
      [ "Avoid security through obscurity";
        "Never trust user input";
        "Implement proper session management";
        "Use secure cryptographic practices" ]
      [ "Apply principle of least privilege";
        "Implement defense in depth";
        "Use secure defaults" ];
    t "database_design" "Database Design & Optimization" codigo
      "senior database architect specialized in data modeling and performance optimization"
      [ "Consider normalization vs denormalization tradeoffs";
        "Think about query performance";
        "Evaluate indexing strategy";
        "Plan for data growth";
        "Address data integrity" ]
      [ "Entity-relationship modeling";
        "Schema design decisions";
        "Index strategy";
        "Query optimization";
        "Transaction management" ]
      [ "Avoid over-normalization";
        "Prevent index bloat";
        "Handle concurrent access properly";
        "Consider query execution plans" ]
      [ "Use appropriate data types";
        "Implement proper constraints";
        "Design for query patterns" ];
    t "system_design" "Distributed Systems & Architecture" tecnica
      "senior systems architect specialized in distributed systems and scalability"
      [ "Consider CAP theorem tradeoffs";
        "Think about consistency models";
        "Evaluate latency requirements";
        "Plan for failure scenarios";
        "Address network partitions" ]
      [ "Architecture diagram and components";
        "Communication patterns";
        "Data flow and storage";
        "Scalability strategy";
        "Failure handling" ]
      [ "Avoid single points of failure";
        "Consider network unreliability";
        "Handle eventual consistency";
        "Prevent cascading failures" ]
      [ "Use circuit breakers";
        "Implement retry with backoff";
        "Apply saga pattern for transactions" ];
    t "ui_ux_design" "UI/UX Design" criativa
      "senior UX designer specialized in user-centered design"
      [ "Consider user research findings";
        "Think about accessibility";
        "Evaluate cognitive load";
        "Plan for different devices";
        "Address user pain points" ]
      [ "User journey mapping";
        "Information architecture";
        "Interaction design patterns";
        "Visual hierarchy";
        "Usability testing plan" ]
      [ "Avoid design for designers";
        "Don't ignore edge cases";
        "Prevent feature bloat";
        "Consider loading states" ]
      [ "Follow platform conventions";
        "Apply progressive disclosure";
        "Use consistent patterns" ];
    t "api_design" "API Design & Integration" tecnica
      "senior API architect specialized in RESTful and GraphQL design"
      [ "Consider API versioning strategy";
        "Think about rate limiting";
        "Evaluate authentication methods";
        "Plan for backward compatibility";
        "Address documentation needs" ]
      [ "Endpoint design and naming";
        "Request/response structure";
        "Error handling format";
        "Authentication flow";
        "Documentation approach" ]
      [ "Avoid chatty APIs";
        "Prevent over-fetching/under-fetching";
        "Handle pagination properly";
        "Implement proper versioning" ]
      [ "Use standard HTTP methods correctly";
        "Implement HATEOAS principles";
        "Follow OpenAPI specification" ];
    t "algorithms" "Algorithms & Data Structures" codigo
      "senior algorithms specialist with deep understanding of computational complexity"
      [ "Consider time and space complexity";
        "Think about edge cases";
        "Evaluate algorithm correctness";
        "Plan for large inputs";
        "Address optimization opportunities" ]
      [ "Algorithm description and intuition";
        "Complexity analysis (Big-O)";
        "Implementation with comments";
        "Test cases including edge cases";
        "Optimization discussion" ]
      [ "Avoid premature optimization";
        "Consider integer overflow";
        "Handle empty inputs";
        "Test with large datasets" ]
      [ "Start with brute force, then optimize";
        "Use appropriate data structures";
        "Document time/space tradeoffs" ] ].

Module DomainMatcher.
Section WithCaseMapping.
Context `{CaseMapping}.

(** The body of the loop over the templates: the score of one template,
    accumulated as the source does. *)
Definition templateScore (lowerRequest : jsstring) (keywords : list jsstring)
  (taskType : TaskType) (template : DomainTemplate) : Z :=
  let score := 0 in
  let score :=
    if TaskType_beq (dt_taskType template) taskType then score + 5 else score in
  let domainKeywords := split_ws (toLowerCase (domain template)) in
  let score :=
    fold_left (fun score keyword =>
                 if includes lowerRequest keyword then score + 3 else score)
              domainKeywords score in
  let score :=
    fold_left (fun score keyword =>
                 if includes (toLowerCase (domain template)) keyword
                 then score + 2 else score)
              keywords score in
  score.

(** [matchDomain] over a catalogue [templates]. *)
Definition matchDomainIn (templates : list DomainTemplate)
  (request : jsstring) (keywords : list jsstring) (taskType : TaskType)
  : option DomainTemplate :=
  let lowerRequest := toLowerCase request in
  let scores :=
    flat_map (fun template =>
                let score := templateScore lowerRequest keywords taskType template in
                if 0 <? score then [(template, score)] else [])
             templates in
  match sort (fun a b => snd b - snd a) scores with
  | (template, score) :: _ => if 5 <=? score then Some template else None
  | [] => None
  end.

Definition matchDomain := matchDomainIn DOMAIN_TEMPLATES.

Definition getContextualHints (template : DomainTemplate)
  (complexityLevel : ComplexityLevel) : list jsstring :=
  contextualHints template
  ++ (if ComplexityLevel_beq complexityLevel expert
         || ComplexityLevel_beq complexityLevel avancado
      then commonPitfalls template else []).

(** The score as the specification words it: 5 for the task type, 3 for
    each word of the domain name found in the request, 2 for each keyword
    found in the domain name. *)
Definition specScore (request : jsstring) (keywords : list jsstring)
  (taskType : TaskType) (template : DomainTemplate) : Z :=
  (if TaskType_beq (dt_taskType template) taskType then 5 else 0)
  + 3 * count (filter (fun w => includes (toLowerCase request) w)
                      (split_ws (toLowerCase (domain template))))
  + 2 * count (filter (fun k => includes (toLowerCase (domain template)) k)
                      keywords).

End WithCaseMapping.
End DomainMatcher.

(* ================================================================== *)
(** * quality-metrics.ts: QualityEvaluator                              *)
(* ================================================================== *)

Inductive Confidence := high | medium | low.

Record Breakdown := {
  clarity : Z;
  completeness : Z;
  specificity : Z;
  techniqueBalance : Z;
  actionability : Z
}.

Record QualityScore := {
  overall : Z;
  breakdown : Breakdown;
  strengths : list jsstring;
  improvements : list jsstring;
  confidence : Confidence
}.

Record MetaInstructionMetrics := {
  directiveCount : Z;
  avgDirectiveLength : float;
  structuralElementsCount : Z;
  thinkingSteps : Z;
  techniquesCovered : Z;
  hasExamples : bool;
  hasFallbacks : bool
}.

Module QualityEvaluator.

(** ** Numbers: integers as binary64 values, and [Math.round] *)

(** The double holding the integer [z] (exact below 2^53). *)
Definition Z2F (z : Z) : float :=
  if z <? 0 then PrimFloat.opp (PrimFloat.of_uint63 (Uint63.of_Z (- z)))
  else PrimFloat.of_uint63 (Uint63.of_Z z).

(** [Math.round(x)] for a finite [x]: the integer nearest to [x], the
    larger one on a tie, computed exactly from the mantissa and exponent. *)
Definition js_round (x : float) : Z :=
  match Prim2SF x with
  | S754_finite s m e =>
      let n := if s then Z.neg m else Z.pos m in
      if e <? 0 then (2 * n + 2 ^ (- e)) / 2 ^ (1 - e)
      else n * 2 ^ e
  | _ => 0
  end.

Section WithCaseMapping.
Context `{CaseMapping}.

Definition calculateMetrics (metaInstructions : MetaInstructionFramework)
  : MetaInstructionMetrics :=
  let directives := promptEngineeringDirectives metaInstructions in
  let avgLength :=
    if 0 <? count directives
    then PrimFloat.div
           (Z2F (fold_left (fun sum d => sum + len (directive d)) directives 0))
           (Z2F (count directives))
    else 0%float in
  let structural := requiredStructuralElements metaInstructions in
  let structuralCount :=
    count (contextRequirements structural)
    + count (constraintsToObserve structural)
    + count (outputFormatGuidelines structural) in
  {| directiveCount := count directives;
     avgDirectiveLength := avgLength;
     structuralElementsCount := structuralCount;
     thinkingSteps := count (thinkingProtocol metaInstructions);
     techniquesCovered := count directives;
     hasExamples := false;
     hasFallbacks := false |}.

Definition clamp (score : Z) : Z := Z.max 0 (Z.min 100 score).

Definition evaluateClarity (metaInstructions : MetaInstructionFramework)
  (metrics : MetaInstructionMetrics) : Z :=
  let score := 100 in
  let score :=
    fold_left
      (fun score d =>
         let score := if len (directive d) <? 30 then score - 5 else score in
         let score := if 200 <? len (directive d) then score - 3 else score in
         let score := if len (reasoning d) <? 20 then score - 8 else score in
         score)
      (promptEngineeringDirectives metaInstructions) score in
  let score := if thinkingSteps metrics <? 4 then score - 10 else score in
  let score := if 10 <? thinkingSteps metrics then score - 5 else score in
  let gd := generationDirective metaInstructions in
  let score :=
    if negb (includes gd (js "generate")) && negb (includes gd (js "construct"))
       && negb (includes gd (js "build"))
    then score - 15 else score in
  clamp score.

Definition evaluateCompleteness (metaInstructions : MetaInstructionFramework)
  (metrics : MetaInstructionMetrics) : Z :=
  let cap := cognitiveAnalysisProtocol metaInstructions in
  let structural := requiredStructuralElements metaInstructions in
  let add (b : bool) (points : Z) (score : Z) :=
    if b then score + points else score in
  let score := 0 in
  let score := add (10 <? len (taskIdentification cap)) 7 score in
  let score := add (10 <? len (complexityAssessment cap)) 7 score in
  let score := add (10 <? len (objectiveClarity cap)) 6 score in
  let score := add (3 <=? directiveCount metrics) 10 score in
  let score := add (4 <=? directiveCount metrics) 8 score in
  let score := add (5 <=? directiveCount metrics) 7 score in
  let score := add (0 <? count (contextRequirements structural)) 8 score in
  let score := add (0 <? count (outputFormatGuidelines structural)) 9 score in
  let score := add (0 <? count (constraintsToObserve structural)) 8 score in
  let score := add (4 <=? thinkingSteps metrics) 10 score in
  let score := add (6 <=? thinkingSteps metrics) 10 score in
  let score := add (50 <? len (generationDirective metaInstructions)) 10 score in
  Z.min 100 score.

Definition genericPhrases : list jsstring :=
  map js ["appropriate"; "relevant"; "suitable"; "proper"].

Definition evaluateSpecificity (metaInstructions : MetaInstructionFramework)
  (analysis : AnalysisResult) : Z :=
  let directives := promptEngineeringDirectives metaInstructions in
  let score := 70 in
  let hasKeywordInDirectives :=
    existsb (fun d =>
               existsb (fun kw => includes (toLowerCase (directive d))
                                           (toLowerCase kw))
                       (keywords analysis))
            directives in
  let score := if hasKeywordInDirectives then score + 15 else score in
  let contextReqs :=
    contextRequirements (requiredStructuralElements metaInstructions) in
  let score := if 3 <=? count contextReqs then score + 10 else score in
  let score :=
    if existsb (fun req => 30 <? len req) contextReqs then score + 5
    else score in
  let constraints :=
    constraintsToObserve (requiredStructuralElements metaInstructions) in
  let score := if 0 <? count constraints then score + 5 else score in
  let genericCount :=
    count (filter (fun d =>
                     existsb (fun phrase =>
                                includes (toLowerCase (directive d)) phrase)
                             genericPhrases)
                  directives) in
  let score := score - genericCount * 3 in
  clamp score.

Definition evaluateTechniqueBalance (techniques : list TechniqueApplication)
  : Z :=
  let n := count techniques in
  let score := 100 in
  let score := if n <? 3 then score - 20 else score in
  let score := if 5 <? n then score - (n - 5) * 10 else score in
  let hasMandatory :=
    existsb (fun t => existsb (PromptingTechnique_beq (technique t))
                              [role_prompting; iq_attribution])
            techniques in
  let score := if negb hasMandatory then score - 30 else score in
  let mandatoryCount :=
    count (filter (fun t => existsb (PromptingTechnique_beq (technique t))
                                    [role_prompting; iq_attribution;
                                     emotion_prompting])
                  techniques) in
  let situationalCount := n - mandatoryCount in
  let score :=
    if (2 <=? mandatoryCount) && (1 <=? situationalCount)
       && (situationalCount <=? 2)
    then score + 10 else score in
  clamp score.

Definition actionVerbs : list jsstring :=
  map js ["apply"; "implement"; "use"; "include"; "add"; "create"; "define";
          "specify"].

(** [\s+\d+] matches at the start of [s]: a run of white space, then a
    digit. *)
Fixpoint spacesThenDigit (seen : bool) (s : jsstring) : bool :=
  match s with
  | [] => false
  | c :: s' =>
    if is_space c then spacesThenDigit true s'
    else seen && is_digit c
  end.

(** [/step\s+\d+/i.test(s)] *)
Fixpoint hasStepNumber (s : jsstring) : bool :=
  match match_ci (js "step") s with
  | Some rest => spacesThenDigit false rest
  | None => false
  end
  || match s with
     | [] => false
     | _ :: s' => hasStepNumber s'
     end.

Definition evaluateActionability (metaInstructions : MetaInstructionFramework)
  : Z :=
  let directives := promptEngineeringDirectives metaInstructions in
  let score := 80 in
  let actionableCount :=
    count (filter (fun d =>
                     existsb (fun verb =>
                                includes (toLowerCase (directive d)) verb)
                             actionVerbs)
                  directives) in
  let score := score + Z.min 20 (actionableCount * 4) in
  let hasStepNumbers :=
    existsb hasStepNumber (thinkingProtocol metaInstructions) in
  let score := if hasStepNumbers then score + 5 else score in
  let gd := toLowerCase (generationDirective metaInstructions) in
  let score :=
    if includes gd (js "based on these") || includes gd (js "following these")
    then score + 5 else score in
  let vagueCount :=
    count (filter (fun d => (len (directive d) <? 40)
                            || (len (reasoning d) =? 0))
                  directives) in
  let score := score - vagueCount * 5 in
  clamp score.

End WithCaseMapping.

(** [Object.entries(breakdown)], in the order the object literal of
    [evaluateQuality] lists its members. *)
Definition entries (b : Breakdown) : list (string * Z) :=
  [ ("clarity", clarity b); ("completeness", completeness b);
    ("specificity", specificity b); ("techniqueBalance", techniqueBalance b);
    ("actionability", actionability b) ].

(** [weights[key] || 0] *)
Definition weight (key : string) : float :=
  if String.eqb key "clarity" then 0.25
  else if String.eqb key "completeness" then 0.25
  else if String.eqb key "specificity" then 0.20
  else if String.eqb key "techniqueBalance" then 0.15
  else if String.eqb key "actionability" then 0.15
  else 0.

(** The accumulated sum of the loop, before rounding. *)
Definition weightedSum (b : Breakdown) : float :=
  fold_left (fun overall '(key, value) =>
               PrimFloat.add overall (PrimFloat.mul (Z2F value) (weight key)))
            (entries b) 0%float.

Definition calculateOverallScore (b : Breakdown) : Z :=
  js_round (weightedSum b).

Definition identifyStrengths (b : Breakdown) (metrics : MetaInstructionMetrics)
  : list jsstring :=
  (if 85 <=? clarity b
   then [js "Exceptionally clear and well-structured directives"] else [])
  ++ (if 85 <=? completeness b
      then [js "Comprehensive coverage of all necessary elements"] else [])
  ++ (if 85 <=? specificity b
      then [js "Highly specific and domain-relevant instructions"] else [])
  ++ (if 85 <=? techniqueBalance b
      then [js "Optimal balance of prompting techniques"] else [])
  ++ (if 85 <=? actionability b
      then [js "Clear, actionable directives easy to follow"] else [])
  ++ (if 6 <=? thinkingSteps metrics
      then [js "Detailed thinking protocol for systematic approach"] else [])
  ++ (if 6 <=? structuralElementsCount metrics
      then [js "Rich structural requirements for comprehensive output"]
      else []).

Definition identifyImprovements (b : Breakdown)
  (metrics : MetaInstructionMetrics) : list jsstring :=
  (if clarity b <? 70
   then [js "Increase clarity of directives with more specific language"]
   else [])
  ++ (if completeness b <? 70
      then [js "Add missing structural elements or thinking steps"] else [])
  ++ (if specificity b <? 70
      then [js "Make instructions more domain-specific and less generic"]
      else [])
  ++ (if techniqueBalance b <? 70
      then [js "Adjust number of techniques for better cognitive balance"]
      else [])
  ++ (if actionability b <? 70
      then [js "Use more action verbs and specific implementation guidance"]
      else [])
  ++ (if directiveCount metrics <? 3
      then [js "Add more prompt engineering directives"] else [])
  ++ (if thinkingSteps metrics <? 5
      then [js "Expand thinking protocol with more detailed steps"] else [])
  ++ (if structuralElementsCount metrics <? 4
      then [js "Include more structural requirements and constraints"]
      else []).

Definition assessConfidence (overall : Z) (metrics : MetaInstructionMetrics)
  : Confidence :=
  if (85 <=? overall) && (4 <=? directiveCount metrics)
     && (5 <=? thinkingSteps metrics)
  then high
  else if (70 <=? overall) && (3 <=? directiveCount metrics) then medium
  else low.

Section WithCaseMapping.
Context `{CaseMapping}.

Definition evaluateQuality (metaInstructions : MetaInstructionFramework)
  (analysis : AnalysisResult) (techniques : list TechniqueApplication)
  : QualityScore :=
  let metrics := calculateMetrics metaInstructions in
  let b :=
    {| clarity := evaluateClarity metaInstructions metrics;
       completeness := evaluateCompleteness metaInstructions metrics;
       specificity := evaluateSpecificity metaInstructions analysis;
       techniqueBalance := evaluateTechniqueBalance techniques;
       actionability := evaluateActionability metaInstructions |} in
  let overall := calculateOverallScore b in
  {| overall := overall;
     breakdown := b;
     strengths := identifyStrengths b metrics;
     improvements := identifyImprovements b metrics;
     confidence := assessConfidence overall metrics |}.

End WithCaseMapping.
End QualityEvaluator.

(* ================================================================== *)
(** * index.ts: the tool-call handler of LumoraPrompterServer           *)
(* ================================================================== *)

Inductive ErrorCode := InvalidParams | InternalError | MethodNotFound.

Record McpError := {
  code : ErrorCode;
  message : jsstring
}.

(** What a [throw] carries in the handler. *)
Inductive Thrown :=
| ThrownMcp (e : McpError)
| ThrownTypeError (msg : jsstring).

(** The components the handler runs, as they are entered. *)
Inductive Component :=
| CAnalyze | CSelectTechniques | CBuildMetaInstructions | CBuildJustification
| CValidateResult | CFormatOutput.

(** [{ content: [{ type: 'text', text }] }] *)
Record ToolResponse := { text : jsstring }.

Module LumoraPrompterServer.

(** ** A computation that may throw and records the components it enters *)

Definition M (A : Type) : Type := list Component * (Thrown + A).

Definition ret {A} (a : A) : M A := ([], inr a).

Definition bind {A B} (m : M A) (f : A -> M B) : M B :=
  match m with
  | (tr, inl e) => (tr, inl e)
  | (tr, inr a) => let '(tr', r) := f a in (tr ++ tr', r)
  end.

Definition throw {A} (e : Thrown) : M A := ([], inl e).

(** Entering component [c], which returns [a]. *)
Definition run {A} (c : Component) (a : A) : M A := ([c], inr a).

(** [try { m } catch (error) { h error }] *)
Definition tryCatch {A} (m : M A) (h : Thrown -> M A) : M A :=
  match m with
  | (tr, inl e) => let '(tr', r) := h e in (tr ++ tr', r)
  | other => other
  end.

Notation "x <- m ;; k" := (bind m (fun x => k))
  (at level 61, m at next level, right associativity).

Definition nl : jsstring := [10%N].

(** The message of the [TypeError] for [v.p] (V8's wording). *)
Definition cannotRead (v : JSValue) (p : string) : jsstring :=
  js "Cannot read properties of "
    ++ (match v with JSNull => js "null" | _ => js "undefined" end)
    ++ js " (reading '" ++ js p ++ js "')".

Definition getPropM (v : JSValue) (p : string) : M JSValue :=
  match getProp v p with
  | Some x => ret x
  | None => throw (ThrownTypeError (cannotRead v p))
  end.

Definition errorMessage (e : Thrown) : jsstring :=
  match e with
  | ThrownMcp e => message e
  | ThrownTypeError msg => msg
  end.

Section WithCaseMapping.
Context `{CaseMapping}.

(** [number | undefined] inside a template. *)
Definition showScore (b : list (jsstring * Z)) (k : string) : jsstring :=
  match find (fun e => streq (fst e) (js k)) b with
  | Some (_, v) => of_Z v
  | None => js "undefined"
  end.

Definition formatOutput (result : OptimizationResult) (validation : Validation)
  : jsstring :=
  let meta := metaInstructions result in
  let cap := cognitiveAnalysisProtocol meta in
  let structural := requiredStructuralElements meta in
  let bullet s := js "- " ++ s in
  let sections :=
    [ js "# 🧠 META-INSTRUCTION SET";
      js "## Cognitive Enhancement Framework for AI Prompt Generation" ++ nl;
      js "⚠️ **IMPORTANT**: These are INSTRUCTIONS for you to GENERATE an optimized prompt.";
      js "Do NOT use these as the final prompt. You must CONSTRUCT your own prompt based on these directives." ++ nl;
      js "---" ++ nl;
      js "## 🔍 Cognitive Analysis Protocol" ++ nl;
      js "**Task Identification**: " ++ taskIdentification cap;
      js "**Complexity Assessment**: " ++ complexityAssessment cap;
      js "**Objective Clarity**: " ++ objectiveClarity cap ++ nl;
      js "## 🎯 Prompt Engineering Directives" ++ nl;
      js "Apply the following techniques when constructing your prompt:" ++ nl ]
    ++ flat_map (fun d =>
         [ js "### Step " ++ of_Z (step d) ++ js ": " ++ directiveTechnique d;
           js "**Directive**: " ++ directive d;
           js "**Reasoning**: " ++ reasoning d ++ nl ])
         (promptEngineeringDirectives meta)
    ++ [ js "---" ++ nl;
         js "## 📝 Required Structural Elements" ++ nl;
         js "### Context Requirements:" ]
    ++ map bullet (contextRequirements structural)
    ++ [ [] ]
    ++ (if 0 <? count (constraintsToObserve structural)
        then [ js "### Constraints to Observe:" ]
             ++ map bullet (constraintsToObserve structural)
             ++ [ [] ]
        else [])
    ++ [ js "### Output Format Guidelines:" ]
    ++ map bullet (outputFormatGuidelines structural)
    ++ [ nl ++ js "---" ++ nl;
         js "## 🧑‍💻 Thinking Protocol" ++ nl;
         js "Follow this cognitive process when generating your prompt:" ++ nl ]
    ++ map bullet (thinkingProtocol meta)
    ++ [ nl ++ js "---" ++ nl;
         js "## 📬 Original Request" ++ nl;
         [34%N] ++ originalRequest meta ++ [34%N] ++ nl;
         js "---" ++ nl;
         js "## ⚙️ GENERATION DIRECTIVE" ++ nl;
         js "📢 **" ++ generationDirective meta ++ js "**" ++ nl;
         js "---" ++ nl ]
    ++ (if negb (isValid validation)
        then [ js "## ⚠️ Validation Warnings" ++ nl ]
             ++ map bullet (issues validation)
             ++ [ nl ++ js "---" ++ nl ]
        else [])
    ++ [ js "## 🔍 Technical Justification" ++ nl;
         js "**Why These Techniques?**" ++ nl ]
    ++ map (fun t => js "- **" ++ tj_name t ++ js "**: " ++ tj_reason t)
           (justifiedTechniques (technicalJustification result))
    ++ [ nl ++ js "**Expected Improvements**:" ++ nl ]
    ++ map bullet (expectedImprovements (technicalJustification result))
    ++ match qualityScore result with
       | Some q =>
         [ nl ++ js "## 📊 Quality Assessment" ++ nl;
           js "**Overall Score**: " ++ of_Z (rq_overall q) ++ js "/100 ("
             ++ toUpperCase (rq_confidence q) ++ js " confidence)" ++ nl;
           js "**Score Breakdown**:";
           js "- Clarity: " ++ showScore (rq_breakdown q) "clarity" ++ js "/100";
           js "- Completeness: " ++ showScore (rq_breakdown q) "completeness"
             ++ js "/100";
           js "- Specificity: " ++ showScore (rq_breakdown q) "specificity"
             ++ js "/100";
           js "- Technique Balance: "
             ++ showScore (rq_breakdown q) "techniqueBalance" ++ js "/100";
           js "- Actionability: " ++ showScore (rq_breakdown q) "actionability"
             ++ js "/100";
           nl ++ js "---" ++ nl ]
       | None => []
       end
    ++ match fewShotExamples result with
       | Some ((_ :: _) as examples) =>
         [ js "## 💡 Example: How to Apply These Instructions" ++ nl;
           examples;
           nl ++ js "---" ++ nl ]
       | _ => []
       end
    ++ [ nl ++ js "---" ++ nl;
         js "*Generated by MCP-Lumora_Prompter v3.0 - Meta-Cognitive Instruction Framework*";
         js "*Enhanced with domain-specific templates, quality metrics, and few-shot examples*";
         js "*Remember: This is a TEACHER, not a GENERATOR. Build your own optimized prompt based on these instructions.*" ] in
  join nl sections.

(** [PromptOptimizer.optimize], component by component. *)
Definition optimizeM (rnd : nat) (request : OptimizationRequest)
  : M OptimizationResult :=
  analysis <- run CAnalyze
    (RequestAnalyzer.analyze (user_request request) (context request)) ;;
  techniques <- run CSelectTechniques
    (TechniqueSelector.selectTechniques rnd analysis) ;;
  metaInstructions <- run CBuildMetaInstructions
    (MetaInstructionBuilder.buildMetaInstructions
       (user_request request) analysis techniques) ;;
  justification <- run CBuildJustification
    (PromptFormatter.buildJustification techniques analysis) ;;
  ret {| analysis :=
           {| ra_originalRequest := user_request request;
              ra_taskType := taskType analysis;
              identifiedObjective := mainObjective analysis;
              appliedTechniques := map technique techniques;
              ra_detectedDomain := None |};
         metaInstructions := metaInstructions;
         technicalJustification := justification;
         qualityScore := None;
         fewShotExamples := None |}.

Definition invalidRequest : McpError :=
  {| code := InvalidParams;
     message := js "user_request é obrigatório e deve ser uma string" |}.

(** [handleOptimizePrompt(args)].  What escapes is an [McpError]; [rnd] is
    the random draw of the selector. *)
Definition handleOptimizePrompt (rnd : nat) (args : JSValue) : M ToolResponse :=
  tryCatch
    (requested <- getPropM args "user_request" ;;
     if negb (truthy requested) || negb (isString requested)
     then throw (ThrownMcp invalidRequest)
     else
       ctx <- getPropM args "context" ;;
       let optimizationRequest :=
         {| user_request := asString requested; context := ctx |} in
       result <- optimizeM rnd optimizationRequest ;;
       validation <- run CValidateResult (PromptOptimizer.validateResult result) ;;
       formattedOutput <- run CFormatOutput (formatOutput result validation) ;;
       ret {| text := formattedOutput |})
    (fun error =>
       match error with
       | ThrownMcp e => throw (ThrownMcp e)
       | other =>
         throw (ThrownMcp
                  {| code := InternalError;
                     message := js "Erro ao otimizar prompt: "
                                  ++ errorMessage other |})
       end).

End WithCaseMapping.
End LumoraPrompterServer.

(* ================================================================== *)
(** * The sums [calculateOverallScore] can reach                        *)
(* ================================================================== *)

(** The weighted sum is accumulated in binary64, one product at a time.
    For axes in 0..100 the partial sums after each of the five additions
    form small finite sets; they are tabulated here as search trees, each
    sum stored with the exact integer [20 * sum] it stands for.  The tables
    are computed once; the proofs only ever look values up in them. *)

Module WeightedSums.
Import QualityEvaluator.

Inductive tree :=
| Leaf
| Node (l : tree) (v : float) (n : Z) (r : tree).

Fixpoint lookupT (x : float) (n : Z) (t : tree) : bool :=
  match t with
  | Leaf => false
  | Node l v m r =>
    if PrimFloat.ltb x v then lookupT x n l
    else if PrimFloat.ltb v x then lookupT x n r
    else PrimFloat.Leibniz.eqb x v && (n =? m)
  end.

Fixpoint InT (x : float) (n : Z) (t : tree) : Prop :=
  match t with
  | Leaf => False
  | Node l v m r => InT x n l \/ (x = v /\ n = m) \/ InT x n r
  end.

Fixpoint allT (P : float -> Z -> bool) (t : tree) : bool :=
  match t with
  | Leaf => true
  | Node l v n r => allT P l && P v n && allT P r
  end.

Fixpoint elements (t : tree) (acc : list (float * Z)) : list (float * Z) :=
  match t with
  | Leaf => acc
  | Node l v n r => elements l ((v, n) :: elements r acc)
  end.

Fixpoint merge (l1 : list (float * Z)) : list (float * Z) -> list (float * Z) :=
  fix aux (l2 : list (float * Z)) :=
    match l1, l2 with
    | [], _ => l2
    | _, [] => l1
    | a :: l1', b :: l2' =>
      if PrimFloat.ltb (fst b) (fst a) then b :: aux l2'
      else a :: merge l1' l2
    end.

Fixpoint halve (l : list (float * Z)) : list (float * Z) * list (float * Z) :=
  match l with
  | a :: b :: l' => let '(x, y) := halve l' in (a :: x, b :: y)
  | _ => (l, [])
  end.

Fixpoint msort (fuel : nat) (l : list (float * Z)) : list (float * Z) :=
  match fuel with
  | O => l
  | S f =>
    match l with
    | [] | [_] => l
    | _ => let '(x, y) := halve l in merge (msort f x) (msort f y)
    end
  end.

Fixpoint uniq (l : list (float * Z)) : list (float * Z) :=
  match l with
  | a :: ((b :: _) as l') =>
    if PrimFloat.Leibniz.eqb (fst a) (fst b) && (snd a =? snd b)
    then uniq l' else a :: uniq l'
  | _ => l
  end.

(** A balanced tree of the first [n] elements of a sorted list. *)
Fixpoint treeify (fuel n : nat) (l : list (float * Z))
  : tree * list (float * Z) :=
  match fuel with
  | O => (Leaf, l)
  | S f =>
    match n with
    | O => (Leaf, l)
    | _ =>
      let nl := Nat.div2 (n - 1) in
      let '(tl, rest) := treeify f nl l in
      match rest with
      | [] => (tl, [])
      | (v, m) :: rest' =>
        let '(tr, rest'') := treeify f (n - 1 - nl) rest' in
        (Node tl v m tr, rest'')
      end
    end
  end.

(** The values an axis can take. *)
Definition axisRange : list Z := map Z.of_nat (seq 0 101).

(** One more term [value * w] added to a sum [v]; [m] is [20 * w]. *)
Definition addTerm (w : float) (m : Z) (v : float) (n : Z) (value : Z)
  : float * Z :=
  (PrimFloat.add v (PrimFloat.mul (Z2F value) w), n + m * value).

Definition next (w : float) (m : Z) (t : tree) : tree :=
  let l := flat_map (fun '(v, n) => map (addTerm w m v n) axisRange)
                    (elements t []) in
  let s := uniq (msort 40 l) in
  fst (treeify 40 (length s) s).

(** Every sum of [t] extended by any axis value is found in [t']. *)
Definition closed (w : float) (m : Z) (t t' : tree) : bool :=
  allT (fun v n =>
          forallb (fun value =>
                     let '(v', n') := addTerm w m v n value in
                     lookupT v' n' t')
                  axisRange)
       t.

Definition sums0 : tree := Node Leaf 0%float 0 Leaf.
Definition sums1 : tree := Eval vm_compute in next 0.25 5 sums0.
Definition sums2 : tree := Eval vm_compute in next 0.25 5 sums1.
Definition sums3 : tree := Eval vm_compute in next 0.20 4 sums2.
Definition sums4 : tree := Eval vm_compute in next 0.15 3 sums3.
Definition sums5 : tree := Eval vm_compute in next 0.15 3 sums4.

(** [o] is an integer nearest to [n / 20]. *)
Definition nearest (o n : Z) : bool := Z.abs (20 * o - n) <=? 10.

End WeightedSums.

(* ================================================================== *)
(** * Vocabulary of the statements                                      *)
(* ================================================================== *)

(** Scenario A of the specification. *)
Definition scenarioA : jsstring :=
  js "Create a REST API for user authentication with JWT".

(** The techniques the candidate list draws from, in the order the
    selector considers them. *)
Definition situationalPool : list PromptingTechnique :=
  [fake_past_consistency; fake_audience; false_restriction;
   someone_disagrees; bet_100_dollars; simtom; rar].

Section Occurrences.
Context `{CaseMapping}.

(** The expert trigger of [assessComplexity] on length and code terms. *)
Definition lengthTrigger (request : jsstring) : bool :=
  (30 <? RequestAnalyzer.wordCount request)
  && RequestAnalyzer.hasCodeTerms request.

(** No word of [words] occurs in the lower-cased request. *)
Definition noneOccurs (words : list jsstring) (request : jsstring) : Prop :=
  forall w, In w words -> includes (toLowerCase request) w = false.

(** Some word of [words] occurs in the lower-cased request. *)
Definition someOccurs (words : list jsstring) (request : jsstring) : Prop :=
  exists w, In w words /\ includes (toLowerCase request) w = true.

End Occurrences.

(** The fixed opening and closing steps of the thinking protocol. *)
Definition protocolPrefix : list jsstring :=
  [ js "Step 1: Read and analyze the original request carefully";
    js "Step 2: Identify the core problem and implicit requirements";
    js "Step 3: Consider the domain expertise needed" ].

Definition protocolSuffix : list jsstring :=
  [ js "Step 6: Structure the prompt with clear sections and requirements";
    js "Step 7: Validate that all meta-instructions are incorporated" ].

(** The task types with steps of their own. *)
Definition hasOwnSteps (t : TaskType) : bool :=
  match t with
  | codigo | criativa | analitica => true
  | _ => false
  end.

(** An analysis result of task type [tecnica]: the one the analyzer
    returns for the request "abc". *)
Definition technicalAnalysis : AnalysisResult :=
  {| taskType := tecnica;
     mainObjective := js "Explicar técnica/método de processo";
     complexityLevel := intermediario;
     implicitContext := [];
     targetAudience := js "Desenvolvedor geral";
     suggestedIQ := 140;
     keywords := [];
     detectedDomain := None;
     intentAnalysis := None |}.

(** Every axis of a breakdown lies in 0..100. *)
Definition inRange (b : Breakdown) : Prop :=
  0 <= clarity b <= 100 /\ 0 <= completeness b <= 100
  /\ 0 <= specificity b <= 100 /\ 0 <= techniqueBalance b <= 100
  /\ 0 <= actionability b <= 100.

(** Twenty times the exact weighted sum of a breakdown. *)
Definition exact20 (b : Breakdown) : Z :=
  5 * clarity b + 5 * completeness b + 4 * specificity b
  + 3 * techniqueBalance b + 3 * actionability b.

(* ================================================================== *)
(** * Facts about the JavaScript layer                                  *)
(* ================================================================== *)

Lemma prefixb_app_l (w p rest : jsstring) :
  prefixb w p = true -> prefixb w (p ++ rest) = true.
Proof.
  revert p. induction w as [|x w IH]; intros p Hp; [reflexivity|].
  destruct p as [|y p]; simpl in *; [discriminate|].
  apply andb_true_iff in Hp as [Hxy Hp].
  rewrite Hxy. simpl. now apply IH.
Qed.

Lemma includes_app_l (p rest w : jsstring) :
  includes p w = true -> includes (p ++ rest) w = true.
Proof.
  induction p as [|c p IH]; simpl; intros Hi.
  - rewrite orb_false_r in Hi. destruct w; [|discriminate].
    destruct rest; reflexivity.
  - apply orb_true_iff in Hi as [Hp|Hi].
    + apply (prefixb_app_l w (c :: p) rest) in Hp. simpl in Hp.
      rewrite Hp. reflexivity.
    + rewrite (IH Hi). apply orb_true_r.
Qed.

Lemma includes_app_r (p rest w : jsstring) :
  includes rest w = true -> includes (p ++ rest) w = true.
Proof.
  induction p as [|c p IH]; simpl; intros Hi; [assumption|].
  rewrite (IH Hi). apply orb_true_r.
Qed.

Lemma lower_unit_stable c : lower_stable c -> lower_unit c = c.
Proof.
  intros [Hlt Hup]. unfold lower_unit. rewrite Hup.
  destruct (192 <=? c)%N eqn:E; simpl; auto.
  apply N.leb_le in E. lia.
Qed.

Lemma prefixb_lower_latin1 w :
  Forall lower_stable w ->
  forall s, prefixb w s = true -> prefixb w (lower_latin1 s) = true.
Proof.
  induction 1 as [|x w Hx Hw IH]; intros s Hp; [reflexivity|].
  destruct s as [|y s]; simpl in *; [discriminate|].
  apply andb_true_iff in Hp as [Hxy Hp]. apply N.eqb_eq in Hxy. subst y.
  rewrite (lower_unit_stable _ Hx), N.eqb_refl. simpl. now apply IH.
Qed.

Lemma includes_lower_latin1 s w :
  Forall lower_stable w ->
  includes s w = true -> includes (lower_latin1 s) w = true.
Proof.
  intros Hw. induction s as [|c s IH]; simpl; intros Hi.
  - rewrite orb_false_r in *. destruct w; auto.
  - apply orb_true_iff in Hi as [Hp|Hi].
    + apply (prefixb_lower_latin1 w Hw (c :: s)) in Hp. simpl in Hp.
      rewrite Hp. reflexivity.
    + rewrite (IH Hi). apply orb_true_r.
Qed.

(** The case mapping of Basic Latin and Latin-1; on strings of that range
    it is the mapping of the run time. *)
#[export] Instance latin1 : CaseMapping :=
  {| toLowerCase := lower_latin1;
     toUpperCase := upper_latin1;
     toLowerCase_keeps := includes_lower_latin1 |}.

(** ** The layer on small inputs *)

Example split_ws_edges :
  split_ws (js " a  b ") = [[]; js "a"; js "b"; []]
  /\ split_ws (js "") = [[]]
  /\ split_ws (js "one two") = [js "one"; js "two"].
Proof. repeat split. Qed.

Example includes_edges :
  includes (js "rest api") (js "api") = true
  /\ includes (js "rest") (js "") = true
  /\ includes (js "ap") (js "api") = false
  /\ includes (toLowerCase (js "REST API")) (js "api") = true.
Proof. repeat split. Qed.

Example literal_units :
  js "código" = [99; 243; 100; 105; 103; 111]%N
  /\ len (js "você") = 4
  /\ of_Z 160 = js "160".
Proof. repeat split. Qed.

Example sort_is_stable :
  sort (fun a b : Z * Z => snd b - snd a) [(1, 5); (2, 7); (3, 5); (4, 7)]
  = [(2, 7); (4, 7); (1, 5); (3, 5)].
Proof. reflexivity. Qed.

Example hasCodeTerms_boundaries :
  RequestAnalyzer.hasCodeTerms (js "my Api.") = true
  /\ RequestAnalyzer.hasCodeTerms (js "x-SERVER") = true
  /\ RequestAnalyzer.hasCodeTerms (js "apis") = false
  /\ RequestAnalyzer.hasCodeTerms (js "an_api x") = false.
Proof. repeat split. Qed.

Example hasStepNumber_cases :
  QualityEvaluator.hasStepNumber (js "Step 1: Read") = true
  /\ QualityEvaluator.hasStepNumber (js "first STEP   42") = true
  /\ QualityEvaluator.hasStepNumber (js "Step one") = false
  /\ QualityEvaluator.hasStepNumber (js "Step1") = false.
Proof. repeat split. Qed.

Example js_round_ties :
  QualityEvaluator.js_round 1.5 = 2
  /\ QualityEvaluator.js_round 2.5 = 3
  /\ QualityEvaluator.js_round (-1.5) = -1
  /\ QualityEvaluator.js_round 0.49999999999999994 = 0
  /\ QualityEvaluator.js_round 87.25 = 87.
Proof. repeat split. Qed.

Example extractKeywords_scenarioA :
  RequestAnalyzer.extractKeywords scenarioA
  = [js "create"; js "authentication"].
Proof. reflexivity. Qed.

Lemma count_filter_le {A} (p : A -> bool) (l : list A) :
  0 <= count (filter p l) <= count l.
Proof.
  unfold count. pose proof (filter_length_le p l). lia.
Qed.

Lemma count_filter_pos {A} (p : A -> bool) (l : list A) :
  0 < count (filter p l) <-> exists x, In x l /\ p x = true.
Proof.
  unfold count. split.
  - intros Hpos. destruct (filter p l) as [|x r] eqn:E; [simpl in Hpos; lia|].
    exists x. apply filter_In. rewrite E. now left.
  - intros [x Hx]. apply filter_In in Hx.
    destruct (filter p l); [contradiction|simpl; lia].
Qed.

Lemma count_filter_zero {A} (p : A -> bool) (l : list A) :
  count (filter p l) = 0 <-> forall x, In x l -> p x = false.
Proof.
  split.
  - intros Hz x Hx. destruct (p x) eqn:E; [|reflexivity].
    assert (0 < count (filter p l)) by (apply count_filter_pos; eauto). lia.
  - intros Hall. destruct (Z.eq_dec (count (filter p l)) 0) as [|Hne]; [assumption|].
    assert (Hpos : 0 < count (filter p l)) by (pose proof (count_filter_le p l); lia).
    apply count_filter_pos in Hpos as [x [Hx Hp]].
    rewrite (Hall x Hx) in Hp. discriminate.
Qed.

(** ** The stable sort *)

Section SortFacts.
Context {A : Type} (cmp : A -> A -> Z).

Lemma insert_perm x l : Permutation (insert cmp x l) (x :: l).
Proof.
  induction l as [|y l IH]; simpl; [reflexivity|].
  destruct (cmp x y <=? 0); [reflexivity|].
  rewrite IH. apply perm_swap.
Qed.

Lemma sort_perm l : Permutation (sort cmp l) l.
Proof.
  induction l as [|x l IH]; simpl; [reflexivity|].
  rewrite insert_perm. now constructor.
Qed.

Lemma sort_length l : length (sort cmp l) = length l.
Proof. apply Permutation_length, sort_perm. Qed.

Lemma sort_In x l : In x (sort cmp l) <-> In x l.
Proof.
  split; apply Permutation_in; [|symmetry]; apply sort_perm.
Qed.

End SortFacts.

(** Sorting by descending [key]: the head carries a greatest key. *)
Lemma sort_desc_head {A} (key : A -> Z) (l : list A) x rest :
  sort (fun a b => key b - key a) l = x :: rest ->
  forall y, In y l -> key y <= key x.
Proof.
  revert x rest. induction l as [|a l IH]; intros x rest Hs y Hy.
  - contradiction.
  - simpl in Hs. destruct (sort (fun a b => key b - key a) l) as [|h t] eqn:E.
    + simpl in Hs. injection Hs as <- <-.
      assert (l = []) as ->.
      { pose proof (sort_length (fun a b => key b - key a) l) as HL.
        rewrite E in HL. destruct l; [reflexivity|discriminate]. }
      destruct Hy as [<-|[]]. lia.
    + simpl in Hs. specialize (IH h t eq_refl).
      destruct (key h - key a <=? 0) eqn:C.
      * injection Hs as <- <-. apply Z.leb_le in C.
        destruct Hy as [<-|Hy]; [lia|]. specialize (IH y Hy). lia.
      * injection Hs as <- <-. apply Z.leb_gt in C.
        destruct Hy as [<-|Hy]; [lia|]. now apply IH.
Qed.

(* ================================================================== *)
(** * Technique selection                                               *)
(* ================================================================== *)


Section SelectorFacts.
Context `{CaseMapping}.
Import TechniqueSelector.


Lemma mandatory_shape (a : AnalysisResult) :
  map technique (applyMandatoryTechniques a) = [role_prompting; iq_attribution]
  \/ map technique (applyMandatoryTechniques a)
     = [role_prompting; iq_attribution; emotion_prompting].
Proof.
  unfold applyMandatoryTechniques.
  destruct (shouldUseEmotionPrompting a); [right|left]; reflexivity.
Qed.

(** The candidates are drawn from the situational pool, in pool order,
    each at most once. *)
Lemma candidates_pool (rnd : nat) (a : AnalysisResult) :
  exists keep : PromptingTechnique -> bool,
    map technique (candidates rnd a) = filter keep situationalPool.
Proof.
  unfold candidates.
  set (c1 := _ || _). set (c2 := _ || _). set (c3 := TaskType_beq _ criativa).
  set (c4 := _ || _). set (c5 := _ && _). set (c6 := _ || _). set (c7 := _ || _).
  exists (fun t => match t with
                   | fake_past_consistency => c1 | fake_audience => c2
                   | false_restriction => c3 | someone_disagrees => c4
                   | bet_100_dollars => c5 | simtom => c6 | rar => c7
                   | _ => false
                   end).
  destruct c1, c2, c3, c4, c5, c6, c7; reflexivity.
Qed.

Lemma situationalPool_NoDup : NoDup situationalPool.
Proof. repeat constructor; simpl; intuition discriminate. Qed.

Lemma firstn_incl {A} n (l : list A) x : In x (firstn n l) -> In x l.
Proof.
  revert n. induction l as [|y l IH]; intros [|n]; simpl; try tauto.
  intros [->|Hx]; [now left|right; eauto].
Qed.

Lemma firstn_NoDup {A} n (l : list A) : NoDup l -> NoDup (firstn n l).
Proof.
  intros Hl. revert n. induction Hl as [|y l Hy Hl IH]; intros [|n]; simpl;
    try constructor.
  - intros Hin. apply Hy. eapply firstn_incl; eassumption.
  - apply IH.
Qed.

Lemma situational_NoDup (rnd : nat) (a : AnalysisResult) :
  NoDup (map technique (selectSituationalTechniques rnd a)).
Proof.
  unfold selectSituationalTechniques, rankCandidates.
  eapply Permutation_NoDup.
  - apply Permutation_map. symmetry. apply sort_perm.
  - destruct (candidates_pool rnd a) as [keep ->].
    apply NoDup_filter, situationalPool_NoDup.
Qed.

Lemma situational_in_pool (rnd : nat) (a : AnalysisResult) t :
  In t (map technique (selectSituationalTechniques rnd a)) ->
  In t situationalPool.
Proof.
  unfold selectSituationalTechniques, rankCandidates. intros Hin.
  eapply Permutation_in in Hin; [|apply Permutation_map, sort_perm].
  destruct (candidates_pool rnd a) as [keep E]. rewrite E in Hin.
  now apply filter_In in Hin.
Qed.

(** What the selector does guarantee: between two and five applications. *)
Lemma selectTechniques_length (rnd : nat) (a : AnalysisResult) :
  (2 <= length (selectTechniques rnd a) <= 5)%nat.
Proof.
  unfold selectTechniques, slice0. rewrite length_app, length_firstn.
  assert (Hm : (2 <= length (applyMandatoryTechniques a) <= 3)%nat).
  { rewrite <- (length_map technique).
    destruct (mandatory_shape a) as [-> | ->]; simpl; lia. }
  lia.
Qed.

(** No technique is applied twice. *)
Lemma selectTechniques_NoDup (rnd : nat) (a : AnalysisResult) :
  NoDup (map technique (selectTechniques rnd a)).
Proof.
  unfold selectTechniques, slice0. rewrite map_app, <- firstn_map.
  apply NoDup_app.
  - destruct (mandatory_shape a) as [-> | ->];
      repeat constructor; simpl; intuition discriminate.
  - apply firstn_NoDup, situational_NoDup.
  - intros t Hm Hs. apply firstn_incl, situational_in_pool in Hs.
    destruct (mandatory_shape a) as [E | E]; rewrite E in Hm;
      simpl in Hm, Hs; intuition (subst; discriminate).
Qed.

(** The two always-applied techniques lead the selection. *)
Lemma selectTechniques_mandatory (rnd : nat) (a : AnalysisResult) :
  exists rest,
    map technique (selectTechniques rnd a)
    = role_prompting :: iq_attribution :: rest.
Proof.
  unfold selectTechniques. rewrite map_app.
  destruct (mandatory_shape a) as [-> | ->]; simpl; eauto.
Qed.

End SelectorFacts.

(** C1 (the code departs from its own rule).  The selector is documented
    to return at most four techniques, and [validateResult] reports more
    than four as an issue; on the request of Scenario A it returns five:
    the three mandatory ones and two situational ones. *)
Theorem selectTechniques_scenarioA_five (rnd : nat) :
  let analysis := RequestAnalyzer.analyze scenarioA JSUndefined in
  let selected := TechniqueSelector.selectTechniques rnd analysis in
  map technique selected
  = [role_prompting; iq_attribution; emotion_prompting;
     bet_100_dollars; rar]
  /\ length selected = 5%nat
  /\ In (js "Muitas técnicas aplicadas (máximo 4)")
        (issues (PromptOptimizer.validateResult
                   (PromptOptimizer.optimize rnd
                      {| user_request := scenarioA; context := JSUndefined |}))).
Proof.
  vm_compute. repeat split. now left.
Qed.

(* ================================================================== *)
(** * Classification                                                    *)
(* ================================================================== *)

Section AnalyzerFacts.
Context `{CaseMapping}.
Import RequestAnalyzer.

Lemma hits_pos text words :
  0 < hits text words <-> exists w, In w words /\ includes text w = true.
Proof. apply count_filter_pos. Qed.

Lemma hits_zero text words :
  hits text words = 0 <-> forall w, In w words -> includes text w = false.
Proof. apply count_filter_zero. Qed.

Lemma hits_nonneg text words : 0 <= hits text words.
Proof. apply count_filter_le. Qed.

Lemma hits_ltb_false text words :
  (forall w, In w words -> includes text w = false) ->
  (0 <? hits text words) = false.
Proof.
  intros Hn. apply hits_zero in Hn. rewrite Hn. reflexivity.
Qed.

Lemma hits_ltb_true text words w :
  In w words -> includes text w = true -> (0 <? hits text words) = true.
Proof.
  intros Hw Hi. apply Z.ltb_lt, hits_pos. eauto.
Qed.


End AnalyzerFacts.

(** C3, as stated, fails: the request "api" names an intermediate
    indicator, names no expert indicator and is too short for the length
    trigger, and is classified [avancado], not [intermediario]. *)
Lemma assessComplexity_api_not_intermediario :
  noneOccurs RequestAnalyzer.expertIndicators (js "api")
  /\ lengthTrigger (js "api") = false
  /\ someOccurs RequestAnalyzer.intermediateIndicators (js "api")
  /\ RequestAnalyzer.assessComplexity (js "api") <> intermediario.
Proof.
  repeat split.
  - intros w Hw. vm_compute in Hw.
    repeat (destruct Hw as [<-|Hw]; [vm_compute; reflexivity|]).
    contradiction.
  - exists (js "api"). split; [|reflexivity]. vm_compute. tauto.
  - vm_compute. discriminate.
Qed.

(** C3 (amended): with no expert indicator and no length trigger, an
    intermediate indicator or more than 20 words gives complexity
    [avancado]. *)
Theorem assessComplexity_avancado `{CaseMapping} (request : jsstring) :
  noneOccurs RequestAnalyzer.expertIndicators request ->
  lengthTrigger request = false ->
  someOccurs RequestAnalyzer.intermediateIndicators request
  \/ 20 < RequestAnalyzer.wordCount request ->
  RequestAnalyzer.assessComplexity request = avancado.
Proof.
  intros Hexp Htrig Hmid. unfold RequestAnalyzer.assessComplexity.
  rewrite (hits_ltb_false _ _ Hexp).
  unfold lengthTrigger in Htrig. rewrite Htrig. simpl.
  destruct Hmid as [[w [Hw Hi]] | Hlen].
  - rewrite (hits_ltb_true _ _ w Hw Hi). reflexivity.
  - apply Z.ltb_lt in Hlen. rewrite Hlen, orb_true_r. reflexivity.
Qed.

Lemma assessComplexity_avancado_witness :
  RequestAnalyzer.assessComplexity (js "api") = avancado.
Proof.
  apply (assessComplexity_avancado (js "api")).
  - intros w Hw. vm_compute in Hw.
    repeat (destruct Hw as [<-|Hw]; [vm_compute; reflexivity|]).
    contradiction.
  - vm_compute. reflexivity.
  - left. exists (js "api"). split; [|reflexivity]. vm_compute. tauto.
Defined.

(** C2, as stated, fails: Scenario A is not classified [expert]. *)
Lemma scenarioA_not_expert :
  ~ (let analysis := RequestAnalyzer.analyze scenarioA JSUndefined in
     let selected := TechniqueSelector.selectTechniques 0 analysis in
     let framework :=
       MetaInstructionBuilder.buildMetaInstructions scenarioA analysis selected in
     taskType analysis = codigo
     /\ complexityLevel analysis = expert
     /\ In role_prompting (map technique selected)
     /\ In iq_attribution (map technique selected)
     /\ includes (generationDirective framework) (js "generate") = true).
Proof.
  cbv zeta. intros (_ & Hc & _). vm_compute in Hc. discriminate.
Qed.

(** C2 (amended): Scenario A is a code task of complexity [avancado]; the
    selection holds both mandatory techniques and the generation directive
    contains "generate". *)
Theorem scenarioA_classification (rnd : nat) :
  let analysis := RequestAnalyzer.analyze scenarioA JSUndefined in
  let selected := TechniqueSelector.selectTechniques rnd analysis in
  let framework :=
    MetaInstructionBuilder.buildMetaInstructions scenarioA analysis selected in
  taskType analysis = codigo
  /\ complexityLevel analysis = avancado
  /\ RequestAnalyzer.wordCount scenarioA = 9
  /\ In role_prompting (map technique selected)
  /\ In iq_attribution (map technique selected)
  /\ includes (generationDirective framework) (js "generate") = true.
Proof.
  vm_compute. repeat split; tauto.
Qed.

(** C8: the classifier is a total function into the two closed enums;
    a request that matches no task-type keyword is [tecnica], and a request
    that meets no complexity threshold is [intermediario]. *)
Theorem analyze_total_defaults `{CaseMapping}
  (userRequest : jsstring) (context : JSValue) :
  let result := RequestAnalyzer.analyze userRequest context in
  In (taskType result)
     [criativa; tecnica; analitica; educacional; debate; documentacao;
      codigo; mista]
  /\ In (complexityLevel result) [basico; intermediario; avancado; expert]
  /\ TaskType_str (taskType result) <> []
  /\ ComplexityLevel_str (complexityLevel result) <> []
  /\ ((forall type words, In (type, words) RequestAnalyzer.patterns ->
         noneOccurs words userRequest) ->
      taskType result = tecnica)
  /\ (noneOccurs RequestAnalyzer.expertIndicators userRequest ->
      lengthTrigger userRequest = false ->
      noneOccurs RequestAnalyzer.intermediateIndicators userRequest ->
      RequestAnalyzer.wordCount userRequest <= 20 ->
      noneOccurs RequestAnalyzer.basicIndicators userRequest ->
      complexityLevel result = intermediario).
Proof.
  cbv zeta. repeat split.
  - destruct (taskType _); simpl; tauto.
  - destruct (complexityLevel _); simpl; tauto.
  - destruct (taskType _); discriminate.
  - destruct (complexityLevel _); discriminate.
  - intros Hnone. cbn. unfold RequestAnalyzer.identifyTaskType.
    assert (E : RequestAnalyzer.taskScores (toLowerCase userRequest) = []).
    { unfold RequestAnalyzer.taskScores.
      assert (G : forall l, incl l RequestAnalyzer.patterns ->
                flat_map (fun '(type, keywords) =>
                  let score := RequestAnalyzer.hits (toLowerCase userRequest) keywords in
                  if 0 <? score then [(type, score)] else []) l = []).
      { induction l as [|[t ws] l IH]; intros Hl; [reflexivity|].
        simpl. rewrite (hits_ltb_false _ _ (Hnone t ws (Hl _ (or_introl eq_refl)))).
        simpl. apply IH. intros x Hx. apply Hl. now right. }
      apply G, incl_refl. }
    rewrite E. reflexivity.
  - intros Hexp Htrig Hmid Hlen Hbas. cbn.
    unfold RequestAnalyzer.assessComplexity.
    rewrite (hits_ltb_false _ _ Hexp), (hits_ltb_false _ _ Hmid),
      (hits_ltb_false _ _ Hbas).
    unfold lengthTrigger in Htrig. rewrite Htrig.
    apply Z.ltb_ge in Hlen. rewrite Hlen. reflexivity.
Qed.

Lemma analyze_total_defaults_witness :
  let result := RequestAnalyzer.analyze (js "hello there") JSUndefined in
  taskType result = tecnica /\ complexityLevel result = intermediario.
Proof.
  pose proof (analyze_total_defaults (js "hello there") JSUndefined) as T.
  cbv zeta in T. destruct T as (_ & _ & _ & _ & Ht & Hc).
  cbv zeta. split.
  - apply Ht. intros type words Hin w Hw.
    vm_compute in Hin.
    repeat (destruct Hin as [Hin|Hin];
            [injection Hin as <- <-; vm_compute in Hw;
             repeat (destruct Hw as [<-|Hw]; [vm_compute; reflexivity|]);
             contradiction|]).
    contradiction.
  - apply Hc.
    + intros w Hw. vm_compute in Hw.
      repeat (destruct Hw as [<-|Hw]; [vm_compute; reflexivity|]). contradiction.
    + vm_compute. reflexivity.
    + intros w Hw. vm_compute in Hw.
      repeat (destruct Hw as [<-|Hw]; [vm_compute; reflexivity|]). contradiction.
    + vm_compute. discriminate.
    + intros w Hw. vm_compute in Hw.
      repeat (destruct Hw as [<-|Hw]; [vm_compute; reflexivity|]). contradiction.
Defined.

(* ================================================================== *)
(** * The assembled framework                                           *)
(* ================================================================== *)


(** The shape the protocol does have: the fixed three-step prefix, then a
    pair of steps for code, creative and analytical tasks (worded
    differently for each) and nothing for any other task type, then the
    fixed two-step suffix; seven or five steps accordingly. *)
Lemma thinkingProtocol_shape (analysis : AnalysisResult) :
  exists own,
    MetaInstructionBuilder.buildThinkingProtocol analysis
    = protocolPrefix ++ own ++ protocolSuffix
    /\ length own = (if hasOwnSteps (taskType analysis) then 2 else 0)%nat
    /\ (forall other,
          hasOwnSteps (taskType analysis) = true ->
          hasOwnSteps (taskType other) = true ->
          taskType other <> taskType analysis ->
          forall s, In s own ->
            ~ In s (MetaInstructionBuilder.buildThinkingProtocol other))
    /\ (5 <= length (MetaInstructionBuilder.buildThinkingProtocol analysis)
        <= 7)%nat.
Proof.
  unfold MetaInstructionBuilder.buildThinkingProtocol.
  destruct analysis as [t ? ? ? ? ? ? ? ?]. cbn [taskType].
  destruct t; eexists; (split; [reflexivity|]); (split; [reflexivity|]);
    (split; [|cbn; lia]);
    intros [t' ? ? ? ? ? ? ? ?]; cbn [taskType hasOwnSteps];
    intros Ha Ho Hne s Hs; try discriminate;
    destruct t'; try discriminate; try congruence;
    vm_compute in Hs |- *;
    intuition (subst; discriminate).
Qed.

Lemma technicalAnalysis_analyzed :
  RequestAnalyzer.analyze (js "abc") JSUndefined = technicalAnalysis.
Proof. vm_compute. reflexivity. Qed.

(** C5 (the code misses a case).  The claim puts a pair of steps between
    the prefix and the suffix for every task type; the builder has no
    branch for the task types other than code, creative and analytical, so
    for a [tecnica] task the protocol is the prefix followed directly by
    the suffix, its steps labelled 1, 2, 3, 6, 7. *)
Theorem thinkingProtocol_tecnica_skips_steps :
  MetaInstructionBuilder.buildThinkingProtocol technicalAnalysis
  = protocolPrefix ++ protocolSuffix
  /\ length (MetaInstructionBuilder.buildThinkingProtocol technicalAnalysis)
     = 5%nat
  /\ ~ exists s4 s5,
        MetaInstructionBuilder.buildThinkingProtocol technicalAnalysis
        = protocolPrefix ++ [s4; s5] ++ protocolSuffix.
Proof.
  split; [reflexivity|]. split; [reflexivity|].
  intros (s4 & s5 & E).
  apply (f_equal (@length jsstring)) in E. vm_compute in E. discriminate.
Qed.

Section BuilderFacts.
Context `{CaseMapping}.
Import MetaInstructionBuilder.

Lemma generate_lower_stable : Forall lower_stable (js "generate").
Proof.
  repeat constructor; vm_compute; reflexivity.
Qed.

Lemma generationDirective_generate (analysis : AnalysisResult) :
  includes (buildGenerationDirective analysis) (js "generate") = true.
Proof.
  unfold buildGenerationDirective. apply includes_app_l. reflexivity.
Qed.

Lemma instructsGeneration_built (analysis : AnalysisResult) :
  instructsGeneration (buildGenerationDirective analysis) = true.
Proof.
  unfold instructsGeneration.
  rewrite (toLowerCase_keeps _ _ generate_lower_stable
             (generationDirective_generate analysis)).
  reflexivity.
Qed.

Lemma directives_count (analysis : AnalysisResult)
  (techniques : list TechniqueApplication) :
  3 <= count (buildEngineeringDirectives analysis techniques).
Proof.
  unfold buildEngineeringDirectives.
  destruct (techniqueDirectives analysis 3 techniques) as [ds n].
  unfold count. rewrite length_app, length_app. simpl. lia.
Qed.

Lemma contextRequirements_count (analysis : AnalysisResult) :
  3 <= count (getContextRequirements analysis).
Proof.
  unfold getContextRequirements, count. rewrite length_app. simpl. lia.
Qed.

Lemma thinkingProtocol_count (analysis : AnalysisResult) :
  5 <= count (buildThinkingProtocol analysis) <= 7.
Proof.
  unfold buildThinkingProtocol, count.
  destruct (taskType analysis); cbn; lia.
Qed.

End BuilderFacts.

(** C10: a framework built by [buildMetaInstructions] always passes
    [validateMetaInstructions] with no issue: it has at least one directive,
    at least three thinking steps, context requirements, and a generation
    directive that contains "generate". *)
Theorem built_framework_valid `{CaseMapping} (originalRequest : jsstring)
  (analysis : AnalysisResult) (techniques : list TechniqueApplication) :
  let framework :=
    MetaInstructionBuilder.buildMetaInstructions
      originalRequest analysis techniques in
  MetaInstructionBuilder.validateMetaInstructions framework
  = {| isValid := true; issues := [] |}
  /\ 1 <= count (promptEngineeringDirectives framework)
  /\ 3 <= count (thinkingProtocol framework)
  /\ 1 <= count (contextRequirements (requiredStructuralElements framework))
  /\ includes (generationDirective framework) (js "generate") = true.
Proof.
  cbv zeta.
  pose proof (directives_count analysis techniques) as Hd.
  pose proof (thinkingProtocol_count analysis) as Ht.
  pose proof (contextRequirements_count analysis) as Hc.
  unfold MetaInstructionBuilder.validateMetaInstructions.
  cbn [MetaInstructionBuilder.buildMetaInstructions
    promptEngineeringDirectives thinkingProtocol requiredStructuralElements
    contextRequirements generationDirective
    MetaInstructionBuilder.buildStructuralRequirements].
  split; [|split; [lia|split; [lia|split; [lia|]]]].
  - rewrite instructsGeneration_built.
    replace (count (MetaInstructionBuilder.buildEngineeringDirectives
                     analysis techniques) =? 0) with false
      by (symmetry; apply Z.eqb_neq; lia).
    replace (count (MetaInstructionBuilder.buildThinkingProtocol analysis) <? 3)
      with false by (symmetry; apply Z.ltb_ge; lia).
    replace (count (MetaInstructionBuilder.getContextRequirements analysis) =? 0)
      with false by (symmetry; apply Z.eqb_neq; lia).
    reflexivity.
  - apply generationDirective_generate.
Qed.

(* ================================================================== *)
(** * The orchestrator and the tool-call handler                        *)
(* ================================================================== *)

(** C4, as stated, fails: the result of [optimize] on Scenario A carries
    no quality score. *)
Lemma optimize_scenarioA_no_qualityScore :
  ~ exists q,
      qualityScore
        (PromptOptimizer.optimize 0
           {| user_request := scenarioA; context := JSUndefined |})
      = Some q.
Proof.
  intros [q Hq]. vm_compute in Hq. discriminate.
Qed.

(** C4 (amended): [optimize] runs the analyzer, the technique selector,
    the meta-instruction builder and the justification formatter, in that
    order and nothing else; its result echoes the classification facts,
    holds the framework built from them and one justification entry per
    selected technique, and leaves [qualityScore] unset. *)
Theorem optimize_result `{CaseMapping} (rnd : nat)
  (request : OptimizationRequest) :
  let facts :=
    RequestAnalyzer.analyze (user_request request) (context request) in
  let selected := TechniqueSelector.selectTechniques rnd facts in
  let result := PromptOptimizer.optimize rnd request in
  LumoraPrompterServer.optimizeM rnd request
  = ([CAnalyze; CSelectTechniques; CBuildMetaInstructions;
      CBuildJustification], inr result)
  /\ ra_originalRequest (analysis result) = user_request request
  /\ ra_taskType (analysis result) = taskType facts
  /\ identifiedObjective (analysis result) = mainObjective facts
  /\ appliedTechniques (analysis result) = map technique selected
  /\ metaInstructions result
     = MetaInstructionBuilder.buildMetaInstructions
         (user_request request) facts selected
  /\ map tj_reason (justifiedTechniques (technicalJustification result))
     = map reason selected
  /\ map tj_name (justifiedTechniques (technicalJustification result))
     = map (fun t => displayName (TECHNIQUES (technique t))) selected
  /\ qualityScore result = None.
Proof.
  cbv zeta. repeat split; try reflexivity.
  - unfold PromptOptimizer.optimize, PromptFormatter.buildJustification.
    cbn [technicalJustification justifiedTechniques].
    rewrite map_map. reflexivity.
  - unfold PromptOptimizer.optimize, PromptFormatter.buildJustification.
    cbn [technicalJustification justifiedTechniques].
    rewrite map_map. reflexivity.
Qed.

Section HandlerFacts.
Context `{CaseMapping}.
Import LumoraPrompterServer.

(** The guard of the handler rejects exactly what is not a non-empty
    string. *)
Lemma guard_rejects (v : JSValue) :
  (forall s, v = JSString s -> s = []) ->
  negb (truthy v) || negb (isString v) = true.
Proof.
  intros Hv. destruct v as [| |b|x|s|props]; try reflexivity.
  - destruct b; reflexivity.
  - simpl. destruct (Prim2SF x); reflexivity.
  - rewrite (Hv s eq_refl). reflexivity.
Qed.

(** When the arguments object is itself absent the property read throws,
    and the handler reports an internal error; no component is entered
    either. *)
Lemma handleOptimizePrompt_no_arguments (rnd : nat) :
  handleOptimizePrompt rnd JSUndefined
  = ([], inl (ThrownMcp
                {| code := InternalError;
                   message := js "Erro ao otimizar prompt: Cannot read properties of undefined (reading 'user_request')" |})).
Proof. reflexivity. Qed.

End HandlerFacts.



(** On a well-formed call the handler does enter the pipeline. *)
Lemma handleOptimizePrompt_scenarioA :
  fst (LumoraPrompterServer.handleOptimizePrompt 0
         (JSObject [("user_request", JSString scenarioA)]))
  = [CAnalyze; CSelectTechniques; CBuildMetaInstructions;
     CBuildJustification; CValidateResult; CFormatOutput].
Proof. vm_compute. reflexivity. Qed.

(* ================================================================== *)
(** * Domain matching                                                   *)
(* ================================================================== *)

Section MatcherFacts.
Context `{CaseMapping}.
Import DomainMatcher.

Lemma fold_add_if {A} (p : A -> bool) (c : Z) (l : list A) (start : Z) :
  fold_left (fun score x => if p x then score + c else score) l start
  = start + c * count (filter p l).
Proof.
  revert start. induction l as [|x l IH]; intros start; simpl.
  - unfold count. simpl. lia.
  - rewrite IH. destruct (p x); unfold count; simpl length; lia.
Qed.

(** The loop computes the score the specification describes. *)
Lemma templateScore_spec request keywords taskType template :
  templateScore (toLowerCase request) keywords taskType template
  = specScore request keywords taskType template.
Proof.
  unfold templateScore, specScore. cbv zeta. rewrite !fold_add_if.
  destruct (TaskType_beq _ _); reflexivity.
Qed.

Lemma specScore_nonneg request keywords taskType template :
  0 <= specScore request keywords taskType template.
Proof.
  unfold specScore.
  pose proof (count_filter_le
    (fun w => includes (toLowerCase request) w)
    (split_ws (toLowerCase (domain template)))).
  pose proof (count_filter_le
    (fun k => includes (toLowerCase (domain template)) k) keywords).
  destruct (TaskType_beq _ _); lia.
Qed.

(** The scored templates: exactly the templates of positive score, each
    with its score. *)
Lemma scored_In (score : DomainTemplate -> Z) templates t s :
  In (t, s)
     (flat_map (fun template =>
                  if 0 <? score template then [(template, score template)]
                  else []) templates)
  <-> In t templates /\ s = score t /\ 0 < s.
Proof.
  rewrite in_flat_map. split.
  - intros (t' & Ht' & Hin). destruct (0 <? score t') eqn:E; [|contradiction].
    destruct Hin as [Hin|[]]. injection Hin as <- <-.
    apply Z.ltb_lt in E. auto.
  - intros (Ht & -> & Hpos). exists t. split; [assumption|].
    apply Z.ltb_lt in Hpos. rewrite Hpos. now left.
Qed.

(** The matcher over any catalogue: it answers with a template of greatest
    score when that score reaches 5, and with nothing otherwise. *)
Lemma matchDomainIn_spec templates request keywords taskType :
  let score := specScore request keywords taskType in
  match matchDomainIn templates request keywords taskType with
  | Some t =>
      In t templates /\ 5 <= score t
      /\ forall t', In t' templates -> score t' <= score t
  | None => forall t', In t' templates -> score t' < 5
  end.
Proof.
  cbv zeta. unfold matchDomainIn.
  set (scores := flat_map _ templates).
  assert (Escores : scores =
    flat_map (fun template =>
      if 0 <? specScore request keywords taskType template
      then [(template, specScore request keywords taskType template)]
      else []) templates).
  { subst scores. induction templates as [|x l IH]; [reflexivity|].
    simpl. rewrite templateScore_spec, IH. reflexivity. }
  assert (Hscores : forall t s, In (t, s) scores <->
            In t templates /\ s = specScore request keywords taskType t /\ 0 < s).
  { intros t s. rewrite Escores. apply scored_In. }
  clearbody scores. clear Escores.
  destruct (sort (fun a b => snd b - snd a) scores) as [|[t s] rest] eqn:Es.
  - assert (scores = []) as Hnil.
    { pose proof (sort_length (fun a b : DomainTemplate * Z => snd b - snd a) scores) as HL.
      rewrite Es in HL. destruct scores; [reflexivity|discriminate]. }
    intros t' Ht'.
    destruct (Z_lt_le_dec 0 (specScore request keywords taskType t')) as [Hpos|Hle];
      [|lia].
    assert (Hin : In (t', specScore request keywords taskType t') scores)
      by (apply Hscores; auto).
    rewrite Hnil in Hin. contradiction.
  - assert (Hhead : In (t, s) scores).
    { apply (sort_In (fun a b : DomainTemplate * Z => snd b - snd a)).
      rewrite Es. now left. }
    apply Hscores in Hhead as (Ht & Hs & Hpos).
    assert (Hmax : forall t', In t' templates ->
              specScore request keywords taskType t' <= s).
    { intros t' Ht'.
      destruct (Z_lt_le_dec 0 (specScore request keywords taskType t')) as [Hp|Hle];
        [|lia].
      assert (Hin : In (t', specScore request keywords taskType t') scores)
        by (apply Hscores; auto).
      apply (sort_desc_head snd scores (t, s) rest Es) in Hin. exact Hin. }
    destruct (5 <=? s) eqn:E5.
    + apply Z.leb_le in E5. subst s. auto.
    + apply Z.leb_gt in E5. intros t' Ht'. specialize (Hmax t' Ht'). lia.
Qed.

End MatcherFacts.

(** C7: each template scores 5 for an equal task type, 3 for each word of
    its lower-cased domain name that occurs in the lower-cased request and
    2 for each keyword that occurs in its lower-cased domain name; the
    matcher returns a template only if its score is greatest among the
    templates and at least 5, and returns none when no score reaches 5. *)
Theorem matchDomain_spec `{CaseMapping} (request : jsstring)
  (keywords : list jsstring) (taskType : TaskType) :
  let score := DomainMatcher.specScore request keywords taskType in
  (forall template,
     DomainMatcher.templateScore (toLowerCase request) keywords taskType template
     = score template)
  /\ match DomainMatcher.matchDomain request keywords taskType with
     | Some t =>
         In t DOMAIN_TEMPLATES /\ 5 <= score t
         /\ forall t', In t' DOMAIN_TEMPLATES -> score t' <= score t
     | None => forall t', In t' DOMAIN_TEMPLATES -> score t' < 5
     end.
Proof.
  cbv zeta. split.
  - intros template. apply templateScore_spec.
  - apply (matchDomainIn_spec DOMAIN_TEMPLATES).
Qed.

(** Two runs of the matcher. *)
Lemma matchDomain_examples :
  option_map key
    (DomainMatcher.matchDomain (js "Design a REST api") [js "design"] tecnica)
  = Some (js "api_design")
  /\ DomainMatcher.matchDomain (js "write a poem") [] debate = None.
Proof. vm_compute. split; reflexivity. Qed.

(* ================================================================== *)
(** * The quality score                                                 *)
(* ================================================================== *)

Section TableFacts.
Import WeightedSums QualityEvaluator.

Lemma lookupT_sound x n t : lookupT x n t = true -> InT x n t.
Proof.
  induction t as [|l IHl v m r IHr]; simpl; [discriminate|].
  destruct (PrimFloat.ltb x v); [auto|].
  destruct (PrimFloat.ltb v x); [auto|].
  intros Hfound. apply andb_true_iff in Hfound as [Hx Hn].
  apply FloatAxioms.Leibniz.eqb_spec in Hx. apply Z.eqb_eq in Hn. auto.
Qed.

Lemma allT_InT P t x n : allT P t = true -> InT x n t -> P x n = true.
Proof.
  induction t as [|l IHl v m r IHr]; simpl; [contradiction|].
  intros Hall Hin.
  apply andb_true_iff in Hall as [Hall Hr].
  apply andb_true_iff in Hall as [Hl Hv].
  destruct Hin as [Hin|[[-> ->]|Hin]]; auto.
Qed.

Lemma axisRange_In value : 0 <= value <= 100 -> In value axisRange.
Proof.
  intros Hv. unfold axisRange.
  rewrite <- (Z2Nat.id value) by lia.
  apply in_map, in_seq. lia.
Qed.

Lemma closed_step w m t t' v n value :
  closed w m t t' = true -> InT v n t -> 0 <= value <= 100 ->
  InT (PrimFloat.add v (PrimFloat.mul (Z2F value) w)) (n + m * value) t'.
Proof.
  intros Hc Hin Hv. unfold closed in Hc.
  pose proof (allT_InT _ _ _ _ Hc Hin) as Hall. cbv beta in Hall.
  rewrite forallb_forall in Hall.
  specialize (Hall value (axisRange_In value Hv)).
  now apply lookupT_sound.
Qed.

Lemma closed_1 : closed 0.25 5 sums0 sums1 = true.
Proof. vm_compute. reflexivity. Qed.

Lemma closed_2 : closed 0.25 5 sums1 sums2 = true.
Proof. vm_compute. reflexivity. Qed.

Lemma closed_3 : closed 0.20 4 sums2 sums3 = true.
Proof. vm_compute. reflexivity. Qed.

Lemma closed_4 : closed 0.15 3 sums3 sums4 = true.
Proof. vm_compute. reflexivity. Qed.

Lemma closed_5 : closed 0.15 3 sums4 sums5 = true.
Proof. vm_compute. reflexivity. Qed.

(** Every sum in the last table rounds to an integer nearest to the exact
    value it stands for. *)
Lemma sums5_nearest :
  allT (fun v n => nearest (js_round v) n) sums5 = true.
Proof. vm_compute. reflexivity. Qed.


Lemma weightedSum_tabulated (b : Breakdown) :
  inRange b -> InT (weightedSum b) (exact20 b) sums5.
Proof.
  intros (Hc & Hk & Hs & Ht & Ha).
  unfold weightedSum, entries. cbn [fold_left].
  change (weight "clarity") with 0.25%float.
  change (weight "completeness") with 0.25%float.
  change (weight "specificity") with 0.20%float.
  change (weight "techniqueBalance") with 0.15%float.
  change (weight "actionability") with 0.15%float.
  replace (exact20 b)
    with (((((0 + 5 * clarity b) + 5 * completeness b) + 4 * specificity b)
           + 3 * techniqueBalance b) + 3 * actionability b)
    by (unfold exact20; lia).
  apply (closed_step _ _ sums4 sums5); [exact closed_5| |assumption].
  apply (closed_step _ _ sums3 sums4); [exact closed_4| |assumption].
  apply (closed_step _ _ sums2 sums3); [exact closed_3| |assumption].
  apply (closed_step _ _ sums1 sums2); [exact closed_2| |assumption].
  apply (closed_step _ _ sums0 sums1); [exact closed_1| |assumption].
  simpl. auto.
Qed.

(** The rounded binary64 sum is an integer nearest to the exact weighted
    sum: it is off by at most one half. *)
Lemma calculateOverallScore_nearest (b : Breakdown) :
  inRange b -> Z.abs (20 * calculateOverallScore b - exact20 b) <= 10.
Proof.
  intros Hb. unfold calculateOverallScore.
  pose proof (allT_InT _ _ _ _ sums5_nearest (weightedSum_tabulated b Hb)) as Hn.
  cbv beta in Hn. unfold nearest in Hn. now apply Z.leb_le in Hn.
Qed.

(** On an exact tie the binary64 sum can fall just below it: 0.15 + 1.35
    is 1.4999999999999998 and rounds to 1. *)
Lemma calculateOverallScore_tie :
  calculateOverallScore
    {| clarity := 0; completeness := 0; specificity := 0;
       techniqueBalance := 1; actionability := 9 |} = 1.
Proof. vm_compute. reflexivity. Qed.

(** Off a tie the nearest integer is unique; on a tie there are two. *)
Lemma nearest_unique (o n : Z) :
  Z.abs (20 * o - n) <= 10 -> n mod 20 <> 10 -> o = (n + 10) / 20.
Proof.
  intros Hn Htie.
  apply Z.div_unique with (r := n + 10 - 20 * o); [|lia].
  left. split; [lia|].
  destruct (Z.eq_dec (n + 10 - 20 * o) 20) as [E|E]; [|lia].
  exfalso. apply Htie.
  replace n with (10 + o * 20) by lia.
  rewrite Z.mod_add by lia. reflexivity.
Qed.

Lemma nearest_tie (o n : Z) :
  Z.abs (20 * o - n) <= 10 -> n mod 20 = 10 -> o = n / 20 \/ o = n / 20 + 1.
Proof.
  intros Hn Htie.
  pose proof (Z.div_mod n 20 ltac:(lia)) as Hd. rewrite Htie in Hd. lia.
Qed.

Lemma clamp_range score : 0 <= clamp score <= 100.
Proof. unfold clamp. lia. Qed.

End TableFacts.

Section EvaluatorFacts.
Context `{CaseMapping}.
Import QualityEvaluator.

Lemma completeness_range metaInstructions metrics :
  0 <= evaluateCompleteness metaInstructions metrics <= 100.
Proof.
  unfold evaluateCompleteness. cbv zeta. split; [|apply Z.le_min_l].
  apply Z.min_glb; [lia|].
  repeat match goal with
  | |- 0 <= (if ?b then ?s + ?p else ?s) =>
      transitivity s; [|destruct b; lia]
  end.
  lia.
Qed.

Lemma breakdown_inRange metaInstructions analysis techniques :
  inRange (breakdown (evaluateQuality metaInstructions analysis techniques)).
Proof.
  unfold evaluateQuality, inRange. cbn [breakdown clarity completeness
    specificity techniqueBalance actionability].
  repeat split;
    try apply completeness_range;
    try apply (proj1 (clamp_range _)); try apply (proj2 (clamp_range _)).
Qed.

End EvaluatorFacts.

(** C6: for every returned quality score, [overall] is the weighted sum
    of the returned breakdown (weights 0.25, 0.25, 0.20, 0.15, 0.15), rounded
    to a nearest integer, and recomputing it from the breakdown gives
    [overall] again.  Every axis lies in 0..100; [overall] is within one half
    of the exact weighted sum [exact20 b / 20], hence the integer obtained by
    rounding it half up whenever the sum is not an exact tie, and lies in
    0..100 too. *)
Theorem overall_is_rounded_weighted_sum `{CaseMapping}
  (metaInstructions : MetaInstructionFramework) (analysis : AnalysisResult)
  (techniques : list TechniqueApplication) :
  let score :=
    QualityEvaluator.evaluateQuality metaInstructions analysis techniques in
  let b := breakdown score in
  overall score = QualityEvaluator.calculateOverallScore b
  /\ overall score = QualityEvaluator.js_round (QualityEvaluator.weightedSum b)
  /\ inRange b
  /\ Z.abs (20 * overall score - exact20 b) <= 10
  /\ (exact20 b mod 20 <> 10 -> overall score = (exact20 b + 10) / 20)
  /\ 0 <= overall score <= 100.
Proof.
  cbv zeta.
  pose proof (breakdown_inRange metaInstructions analysis techniques) as Hb.
  pose proof (calculateOverallScore_nearest _ Hb) as Hn.
  assert (Ho : overall (QualityEvaluator.evaluateQuality
                          metaInstructions analysis techniques)
               = QualityEvaluator.calculateOverallScore
                   (breakdown (QualityEvaluator.evaluateQuality
                                 metaInstructions analysis techniques)))
    by reflexivity.
  rewrite Ho.
  split; [reflexivity|]. split; [reflexivity|]. split; [exact Hb|].
  split; [exact Hn|]. split; [apply nearest_unique; exact Hn|].
  destruct Hb as (Hc & Hk & Hs & Ht & Ha). unfold exact20 in Hn. lia.
Qed.
